(** * Fenics data module: per-node data loaders for decentralised
      federated learning

    A shallow embedding of [fenics/data/module.py] (class [DataModule]) and
    of [fenics/topology/base.py] ([create_nodes], class [TopologyBase]).

    Python objects are modelled as follows.
    - Python [int]s are [Z]; the [float] [alpha] is a binary64 [float].
    - An attribute that [__init__] sets to [None] is an [option].
    - The two dictionaries of the instance are [gmap Z _].  Both are filled
      in ascending key order, so Python's insertion order is the key order.
    - [DataLoader] objects have an identity: they live in a heap (a list
      that only grows), and a reference to one is its position there.
    - Methods run in a state-and-exception monad over the instance and the
      process-wide state (global random generators, files, log sinks, the
      heap).  A raised exception keeps the state reached so far, as in
      Python.
    - The Python runtime and the libraries ([random], [torch], [numpy],
      [logging]) and the modules of the package that the data module only
      calls ([fenics.data.handler], [fenics.plotting], the topology
      builders) are interfaces: type classes [Runtime] and [Fenics]. *)

From Stdlib Require Import ZArith Uint63 Floats.PrimFloat.
From stdpp Require Import gmap strings list sorting.

Local Open Scope Z_scope.

(** ** Exceptions and results *)

Inductive exn : Type :=
| TypeError
| AttributeError
| IndexError
| ZeroDivisionError
| KeyError (key : Z)
| ValueError (msg : string)
| Failure (origin : string).

Inductive result (A : Type) : Type :=
| Ok (a : A)
| Raise (e : exn).
Arguments Ok {A} a.
Arguments Raise {A} e.

Definition is_ok {A} (r : result A) : bool :=
  match r with Ok _ => true | Raise _ => false end.

(** ** Python built-ins used by the module *)

(** [list(range(n))] *)
Definition py_range (n : Z) : list Z := seqZ 0 n.

(** [a // b]: floor division; Python raises on a zero divisor. *)
Definition py_floordiv (a b : Z) : result Z :=
  if decide (b = 0) then Raise ZeroDivisionError else Ok (a / b).

(** [x[i]] on a list: negative positions count from the end. *)
Definition py_getitem {A} (x : list A) (i : Z) : result A :=
  let len := Z.of_nat (length x) in
  let p := if decide (i < 0) then i + len else i in
  if decide (p < 0) then Raise IndexError
  else match x !! Z.to_nat p with
       | Some a => Ok a
       | None => Raise IndexError
       end.

(** [x[start:stop]]: bounds are clipped to the list, negative bounds count
    from the end, an empty range gives the empty list. *)
Definition slice_bound (len i : Z) : Z :=
  if decide (i < 0) then Z.max (i + len) 0 else Z.min i len.

Definition py_slice {A} (x : list A) (start stop : Z) : list A :=
  let len := Z.of_nat (length x) in
  let lo := slice_bound len start in
  let hi := slice_bound len stop in
  take (Z.to_nat (hi - lo)) (drop (Z.to_nat lo) x).

(** [d[k]] on a dictionary. *)
Definition dict_getitem {V} (d : gmap Z V) (k : Z) : result V :=
  match d !! k with
  | Some v => Ok v
  | None => Raise (KeyError k)
  end.

(** The items of a dictionary in the order of their keys. *)
Definition key_le {V} (a b : Z * V) : Prop := a.1 ≤ b.1.

#[global] Instance key_le_dec {V} (a b : Z * V) : Decision (key_le a b) :=
  Z_le_dec a.1 b.1.

Definition dict_items {V} (d : gmap Z V) : list (Z * V) :=
  merge_sort key_le (map_to_list d).

(** ** Datasets and loaders of [torch.utils.data] *)

Inductive Dataset : Type :=
| Source (name : string) (size : nat)
| Subset (dataset : Dataset) (indices : list Z).

(** [len(dataset)] *)
Definition len (d : Dataset) : Z :=
  match d with
  | Source _ size => Z.of_nat size
  | Subset _ indices => Z.of_nat (length indices)
  end.

(** The index sequence a subset selects. *)
Definition subset_indices (d : Dataset) : option (list Z) :=
  match d with
  | Source _ _ => None
  | Subset _ indices => Some indices
  end.

Record DataLoader : Type := mkDataLoader {
  dl_dataset : Dataset;
  dl_batch_size : Z;
  dl_shuffle : bool
}.

(** A reference to a loader object. *)
Abbreviation loc := nat.

(** ** Interfaces of the collaborators *)

(** The Python runtime and the numerical libraries. *)
Class Runtime : Type := {
  (** state of the generator behind the [random] module *)
  RngState : Type;
  (** the rest of the process: the generators of [torch] and [numpy],
      files, log sinks *)
  Ext : Type;
  Logger : Type;
  (** [random.seed(a)] installs a state that depends on [a] only *)
  random_seed_state : Z → RngState;
  (** [random._randbelow(n)]: a draw below [n] *)
  randbelow : nat → RngState → nat * RngState;
  randbelow_lt : ∀ n g, (0 < n)%nat → ((randbelow n g).1 < n)%nat;
  (** [torch.manual_seed(seed)] and [np.random.seed(seed)] *)
  torch_manual_seed : Z → Ext → result unit * Ext;
  np_random_seed : Z → Ext → result unit * Ext;
  (** [logging.getLogger()] and [logger.info(msg)] *)
  getLogger : Logger;
  logger_info : Logger → string → Ext → result unit * Ext;
  (** the argument validation of [DataLoader(dataset, batch_size, shuffle)]:
      the exception it raises, if any *)
  DataLoader_check : Dataset → Z → bool → option exn
}.

(** Global state the collaborators can read and write. *)
Record Env `{Runtime} : Type := mkEnv {
  rng : RngState;
  ext : Ext
}.
Arguments mkEnv {_} _ _.

(** The modules of the package the data module calls into. *)
Class Fenics `{Runtime} : Type := {
  Labels : Type;
  Graph : Type;
  (** fenics.data.handler *)
  load_datasets_dirichlet :
    Z → float → Env → result (list Dataset * Dataset * Labels) * Env;
  print_class_distribution :
    option (list Dataset) → Logger → Env → result unit * Env;
  (** fenics.plotting *)
  visualize_data_distribution :
    option (list Dataset) → Z → list string → string → Logger → Env →
    result unit * Env;
  (** fenics.topology *)
  build_topology : Z → string → option string → Env → result Graph * Env;
  visualize_and_save_topology :
    option Graph → string → string → Env → result unit * Env
}.

(** Modelled from the spec: [fenics.utils.calculate_selection_probabilities],
    whose module is missing from the sources.  The specification says it returns
    per-node weights proportional to each node's training-set size, summing
    to one, and that an accessor used before [setup] fails with an error.
    A total size of zero admits no such weights; the division fails. *)
Definition utils_calculate_selection_probabilities
    (node_datasets : option (gmap Z Dataset)) : result (list float) :=
  match node_datasets with
  | None => Raise AttributeError
  | Some d =>
      let sizes := (λ kv : Z * Dataset, len kv.2) <$> dict_items d in
      let total := foldr Z.add 0 sizes in
      if decide (total = 0) then Raise ZeroDivisionError
      else Ok ((λ s, PrimFloat.div (of_uint63 (Uint63.of_Z s))
                                   (of_uint63 (Uint63.of_Z total))) <$> sizes)
  end.

(** fenics/topology/base.py: [create_nodes] *)
Definition create_nodes (num_nodes : Z) : list Z := py_range num_nodes.

(** ** Shuffling: [random.shuffle]

    The library walks the positions from the last one down to position 1 and
    exchanges each with a position drawn at or below it. *)

Section Shuffle.
Context `{RT : Runtime}.

(** [x[i], x[j] = x[j], x[i]]; a position outside the list cannot occur,
    the draw is below [i + 1]. *)
Definition swap (x : list Z) (i j : nat) : list Z :=
  match x !! i, x !! j with
  | Some xi, Some xj => <[j:=xi]> (<[i:=xj]> x)
  | _, _ => x
  end.

Fixpoint shuffle_steps (positions : list nat) (x : list Z) (g : RngState)
    : list Z * RngState :=
  match positions with
  | [] => (x, g)
  | i :: rest =>
      let '(j, g') := randbelow (S i) g in
      shuffle_steps rest (swap x i j) g'
  end.

(** [for i in reversed(range(1, len(x)))] *)
Definition shuffle (x : list Z) (g : RngState) : list Z * RngState :=
  shuffle_steps (reverse (seq 1 (length x - 1))) x g.
End Shuffle.

(** ** The data module *)

Section Model.
Context `{RT : Runtime} `{FX : !Fenics}.

(** Process-wide state: the environment of the collaborators and the
    loader objects allocated so far. *)
Record World : Type := mkWorld {
  env : Env;
  heap : list DataLoader
}.

Record DataModule : Type := mkDataModule {
  num_nodes : Z;
  alpha : float;
  topology : string;
  topology_file : option string;
  output_dir : string;
  logger : Logger;
  batch_size : Z;
  random_seed : Z;
  train_datasets : option (list Dataset);
  test_dataset : option Dataset;
  labels : option Labels;
  nodes : option (list Z);
  G : option Graph;
  node_datasets : option (gmap Z Dataset);
  test_loaders_per_node : option (gmap Z loc)
}.

(** Attribute assignments [self.f = v]. *)
Definition set_loaded (tr : list Dataset) (te : Dataset) (lb : Labels)
    (self : DataModule) : DataModule :=
  mkDataModule (num_nodes self) (alpha self) (topology self)
    (topology_file self) (output_dir self) (logger self) (batch_size self)
    (random_seed self) (Some tr) (Some te) (Some lb) (nodes self) (G self)
    (node_datasets self) (test_loaders_per_node self).

Definition set_nodes (v : list Z) (self : DataModule) : DataModule :=
  mkDataModule (num_nodes self) (alpha self) (topology self)
    (topology_file self) (output_dir self) (logger self) (batch_size self)
    (random_seed self) (train_datasets self) (test_dataset self)
    (labels self) (Some v) (G self) (node_datasets self)
    (test_loaders_per_node self).

Definition set_G (v : Graph) (self : DataModule) : DataModule :=
  mkDataModule (num_nodes self) (alpha self) (topology self)
    (topology_file self) (output_dir self) (logger self) (batch_size self)
    (random_seed self) (train_datasets self) (test_dataset self)
    (labels self) (nodes self) (Some v) (node_datasets self)
    (test_loaders_per_node self).

Definition set_node_datasets (v : gmap Z Dataset) (self : DataModule)
    : DataModule :=
  mkDataModule (num_nodes self) (alpha self) (topology self)
    (topology_file self) (output_dir self) (logger self) (batch_size self)
    (random_seed self) (train_datasets self) (test_dataset self)
    (labels self) (nodes self) (G self) (Some v)
    (test_loaders_per_node self).

Definition set_test_loaders_per_node (v : gmap Z loc) (self : DataModule)
    : DataModule :=
  mkDataModule (num_nodes self) (alpha self) (topology self)
    (topology_file self) (output_dir self) (logger self) (batch_size self)
    (random_seed self) (train_datasets self) (test_dataset self)
    (labels self) (nodes self) (G self) (node_datasets self) (Some v).

(** *** The monad of method bodies *)

Definition State : Type := DataModule * World.

Definition M (A : Type) : Type := State → result A * State.

#[global] Instance M_ret : MRet M := λ A a s, (Ok a, s).

#[global] Instance M_bind : MBind M := λ A B k m s,
  match m s with
  | (Ok a, s') => k a s'
  | (Raise e, s') => (Raise e, s')
  end.

Definition lift {A} (r : result A) : M A := λ s, (r, s).

(** read [self.f] *)
Definition attr {A} (f : DataModule → A) : M A := λ s, (Ok (f s.1), s).

(** [self.f = v] *)
Definition assign (f : DataModule → DataModule) : M unit :=
  λ s, (Ok tt, (f s.1, s.2)).

(** a call into a collaborator *)
Definition call {A} (f : Env → result A * Env) : M A := λ s,
  let '(r, e) := f (env s.2) in (r, (s.1, mkWorld e (heap s.2))).

Definition call_ext {A} (f : Ext → result A * Ext) : M A :=
  call (λ e, let '(r, x) := f (ext e) in (r, mkEnv (rng e) x)).

(** [random.shuffle(x)]: the list is permuted in place. *)
Definition random_shuffle (x : list Z) : M (list Z) :=
  call (λ e, let '(y, g) := shuffle x (rng e) in (Ok y, mkEnv g (ext e))).

(** [DataLoader(dataset, batch_size=.., shuffle=..)]: a new object. *)
Definition new_DataLoader (dataset : Dataset) (bs : Z) (sh : bool) : M loc :=
  λ s,
  match DataLoader_check dataset bs sh with
  | Some e => (Raise e, s)
  | None =>
      (Ok (length (heap s.2)),
       (s.1, mkWorld (env s.2) (heap s.2 ++ [mkDataLoader dataset bs sh])))
  end.

(** [for a in l: body] *)
Fixpoint for_each {A} (l : list A) (body : A → M unit) : M unit :=
  match l with
  | [] => mret tt
  | a :: rest => body a;; for_each rest body
  end.

(** Operations on attribute values, which may still be [None]. *)
Definition py_len (o : option Dataset) : result Z :=
  match o with
  | None => Raise TypeError
  | Some d => Ok (len d)
  end.

Definition subscript {A} (o : option (list A)) (i : Z) : result A :=
  match o with
  | None => Raise TypeError
  | Some x => py_getitem x i
  end.

Definition dict_subscript {V} (o : option (gmap Z V)) (k : Z) : result V :=
  match o with
  | None => Raise TypeError
  | Some d => dict_getitem d k
  end.

(** *** [DataModule.__init__]

    The attributes are stored as given; the three generators are seeded;
    the derived attributes start as [None]. *)
Definition __init__ (num_nodes : Z) (alpha : float) (topology : string)
    (topology_file : option string) (output_dir : string)
    (logger : option Logger) (batch_size random_seed : Z) (w : World)
    : result DataModule * World :=
  let logger := default getLogger logger in
  match torch_manual_seed random_seed (ext (env w)) with
  | (Raise e, x) => (Raise e, mkWorld (mkEnv (rng (env w)) x) (heap w))
  | (Ok _, x) =>
      let g := random_seed_state random_seed in
      match np_random_seed random_seed x with
      | (Raise e, x') => (Raise e, mkWorld (mkEnv g x') (heap w))
      | (Ok _, x') =>
          (Ok (mkDataModule num_nodes alpha topology topology_file
                 output_dir logger batch_size random_seed
                 None None None None None None None),
           mkWorld (mkEnv g x') (heap w))
      end
  end.

(** *** [DataModule._create_test_loaders] *)

(** [self.test_loaders_per_node[k] = v] *)
Definition setitem_test_loaders (k : Z) (v : loc) : M unit := λ s,
  match test_loaders_per_node s.1 with
  | None => (Raise TypeError, s)
  | Some d => (Ok tt, (set_test_loaders_per_node (<[k:=v]> d) s.1, s.2))
  end.

(** [Subset(self.test_dataset, indices)]; the attribute is set whenever
    this is reached, [len(self.test_dataset)] has been taken before. *)
Definition new_Subset (o : option Dataset) (indices : list Z)
    : result Dataset :=
  match o with
  | None => Raise TypeError
  | Some d => Ok (Subset d indices)
  end.

(** The body of the loop over [i]. *)
Definition test_loader_for (test_indices : list Z) (split_size i : Z)
    : M unit :=
  let start := i * split_size in
  n ← attr num_nodes;
  stop ← (if decide (i < n - 1) then mret ((i + 1) * split_size)
          else td ← attr test_dataset; lift (py_len td));
  let node_test_indices := py_slice test_indices start stop in
  td ← attr test_dataset;
  node_test_subset ← lift (new_Subset td node_test_indices);
  bs ← attr batch_size;
  node_test_loader ← new_DataLoader node_test_subset bs false;
  ns ← attr nodes;
  node ← lift (subscript ns i);
  setitem_test_loaders node node_test_loader.

Definition _create_test_loaders : M unit :=
  td ← attr test_dataset;
  size ← lift (py_len td);
  test_indices ← random_shuffle (py_range size);
  td ← attr test_dataset;
  size ← lift (py_len td);
  n ← attr num_nodes;
  split_size ← lift (py_floordiv size n);
  assign (set_test_loaders_per_node ∅);;
  n ← attr num_nodes;
  for_each (py_range n) (test_loader_for test_indices split_size).

(** *** [DataModule.setup] *)

Definition class_names : list string :=
  ["T-shirt/top"; "Trouser"; "Pullover"; "Dress"; "Coat";
   "Sandal"; "Shirt"; "Sneaker"; "Bag"; "Ankle boot"].

(** [{node: self.train_datasets[node] for node in ...}] *)
Fixpoint collect_node_datasets (ns : list Z) (acc : gmap Z Dataset)
    : M (gmap Z Dataset) :=
  match ns with
  | [] => mret acc
  | node :: rest =>
      tds ← attr train_datasets;
      d ← lift (subscript tds node);
      collect_node_datasets rest (<[node:=d]> acc)
  end.

(** iterating over [self.nodes] *)
Definition iterable {A} (o : option (list A)) : result (list A) :=
  match o with
  | None => Raise TypeError
  | Some x => Ok x
  end.

Definition setup : M unit :=
  n ← attr num_nodes;
  a ← attr alpha;
  '(tr, te, lb) ← call (load_datasets_dirichlet n a);
  assign (set_loaded tr te lb);;
  tds ← attr train_datasets;
  lg ← attr logger;
  call (print_class_distribution tds lg);;
  tds ← attr train_datasets;
  n ← attr num_nodes;
  out ← attr output_dir;
  lg ← attr logger;
  call (visualize_data_distribution tds n class_names out lg);;
  n ← attr num_nodes;
  assign (set_nodes (create_nodes n));;
  n ← attr num_nodes;
  topo ← attr topology;
  file ← attr topology_file;
  g ← call (build_topology n topo file);
  assign (set_G g);;
  g ← attr G;
  topo ← attr topology;
  out ← attr output_dir;
  call (visualize_and_save_topology g topo out);;
  ns ← attr nodes;
  ns ← lift (iterable ns);
  nd ← collect_node_datasets ns ∅;
  assign (set_node_datasets nd);;
  _create_test_loaders;;
  lg ← attr logger;
  call_ext (logger_info lg "Data module setup complete").

(** *** Accessors *)

Definition get_train_loader (node_id : Z) : M loc :=
  nd ← attr node_datasets;
  d ← lift (dict_subscript nd node_id);
  bs ← attr batch_size;
  new_DataLoader d bs true.

Definition get_test_loader (node_id : Z) : M loc :=
  tl ← attr test_loaders_per_node;
  lift (dict_subscript tl node_id).

(** [self.node_datasets.items()] fails on [None]. *)
Definition get_data_sizes : M (gmap Z Z) :=
  nd ← attr node_datasets;
  match nd with
  | None => lift (Raise AttributeError)
  | Some d => mret (len <$> d)
  end.

Definition calculate_selection_probabilities : M (list float) :=
  nd ← attr node_datasets;
  lift (utils_calculate_selection_probabilities nd).

(** *** The two maps of the specification *)

(** Node Assignment Map: the dataset of each node. *)
Definition node_assignment (self : DataModule) (node : Z) : option Dataset :=
  d ← node_datasets self; d !! node.

(** Test Split Map: the index sequence behind the test loader of a node. *)
Definition test_split (self : DataModule) (w : World) (node : Z)
    : option (list Z) :=
  d ← test_loaders_per_node self;
  l ← d !! node;
  ld ← heap w !! l;
  subset_indices (dl_dataset ld).
End Model.

(** ** What [setup] leaves behind

    Auxiliary notions in which the properties below are stated. *)

(** The slices the loop of [_create_test_loaders] takes: [size] is the length
    of the shuffled list, [n] the number of nodes. *)
Definition node_slice {A} (x : list A) (n : Z) (i : Z) : list A :=
  let size := Z.of_nat (length x) in
  let split_size := size / n in
  py_slice x (i * split_size)
    (if decide (i < n - 1) then (i + 1) * split_size else size).

Section Outcome.
Context `{RT : Runtime} `{FX : !Fenics}.
Variables (n : Z) (a : float) (t : string) (tf : option string)
          (od : string) (lg : Logger) (bs sd : Z).

(** The test loader the loop builds for node [i] from the shuffled
    indices [ti]. *)
Definition indices_at (te : Dataset) (ti : list Z) (i : Z) : list Z :=
  py_slice ti (i * (len te / n))
    (if decide (i < n - 1) then (i + 1) * (len te / n) else len te).

Definition loader_at (te : Dataset) (ti : list Z) (i : Z) : DataLoader :=
  mkDataLoader (Subset te (indices_at te ti i)) bs false.

(** Every test loader of the nodes [ks] passes the validation. *)
Definition checks_pass (te : Dataset) (ti : list Z) (ks : list Z) : Prop :=
  Forall
    (λ i, DataLoader_check (dl_dataset (loader_at te ti i)) bs false = None)
    ks.

(** The shuffled test indices and the generator state after the shuffle,
    when [_create_test_loaders] starts in environment [e]. *)
Definition shuffled (te : Dataset) (e : Env) : list Z :=
  (shuffle (py_range (len te)) (rng e)).1.

Definition after_shuffle (te : Dataset) (e : Env) : RngState :=
  (shuffle (py_range (len te)) (rng e)).2.

(** [setup] gets as far as its last line: every collaborator returns,
    every node has a training dataset, the number of nodes is not zero
    and every test loader passes the validation.  [e5] is the environment
    after the topology has been saved. *)
Definition setup_derives (e0 : Env) (tr : list Dataset) (te : Dataset)
    (lb : Labels) (gr : Graph) (e5 : Env) : Prop :=
  ∃ e1 e2 e3 e4,
    load_datasets_dirichlet n a e0 = (Ok (tr, te, lb), e1) ∧
    print_class_distribution (Some tr) lg e1 = (Ok tt, e2) ∧
    visualize_data_distribution (Some tr) n class_names od lg e2
      = (Ok tt, e3) ∧
    build_topology n t tf e3 = (Ok gr, e4) ∧
    visualize_and_save_topology (Some gr) t od e4 = (Ok tt, e5) ∧
    (∀ k, k ∈ py_range n → ∃ d, py_getitem tr k = Ok d) ∧
    n ≠ 0 ∧
    checks_pass te (shuffled te e5) (py_range n).

(** [nd] is [{node: tr[node] for node in range(n)}]. *)
Definition node_datasets_of (tr : list Dataset) (nd : gmap Z Dataset) : Prop :=
  ∀ k, (k ∈ py_range n → ∃ d, py_getitem tr k = Ok d ∧ nd !! k = Some d) ∧
       (k ∉ py_range n → nd !! k = None).

(** [tl] maps node [k] to the [k]-th object allocated after [h]. *)
Definition loaders_from (h : list DataLoader) (tl : gmap Z loc) : Prop :=
  ∀ k, (k ∈ py_range n → tl !! k = Some (length h + Z.to_nat k)%nat) ∧
       (k ∉ py_range n → tl !! k = None).

(** The state after the test loaders have been created. *)
Definition ready (tr : list Dataset) (te : Dataset) (lb : Labels)
    (gr : Graph) (nd : gmap Z Dataset) (tl : gmap Z loc) (e5 : Env)
    (x : Ext) (h : list DataLoader) : State :=
  (mkDataModule n a t tf od lg bs sd (Some tr) (Some te) (Some lb)
     (Some (py_range n)) (Some gr) (Some nd) (Some tl),
   mkWorld (mkEnv (after_shuffle te e5) x)
     (h ++ (loader_at te (shuffled te e5) <$> py_range n))).
End Outcome.

(** Two instances with the same configuration. *)
Definition same_config `{RT : Runtime} `{FX : !Fenics} (dm dm' : DataModule)
    : Prop :=
  num_nodes dm = num_nodes dm' ∧ alpha dm = alpha dm' ∧
  topology dm = topology dm' ∧ topology_file dm = topology_file dm' ∧
  output_dir dm = output_dir dm' ∧ logger dm = logger dm' ∧
  batch_size dm = batch_size dm' ∧ random_seed dm = random_seed dm'.

(** ** A small concrete instance of the interfaces

    Used to run the module on concrete inputs.  The generator is a linear
    congruential one; the environment records the state of the numpy
    generator and the lines and artifacts written so far.  The logger named
    "closed" fails on every record. *)

Module Sample.
Definition lcg_randbelow (n g : nat) : nat * nat :=
  let g' := ((g * 5 + 3) mod 64)%nat in ((g' mod n)%nat, g').

Lemma lcg_randbelow_lt n g : (0 < n)%nat → ((lcg_randbelow n g).1 < n)%nat.
Proof. intros Hn. simpl. apply Nat.mod_upper_bound. lia. Qed.

Definition np_seed (seed : Z) (x : Z * list string)
    : result unit * (Z * list string) :=
  if decide (0 ≤ seed < 2 ^ 32) then (Ok tt, (seed, x.2))
  else (Raise (ValueError "Seed must be between 0 and 2**32 - 1"), x).

Definition loader_check (d : Dataset) (bs : Z) (sh : bool) : option exn :=
  if decide (bs ≤ 0) then
    Some (ValueError "batch_size should be a positive integer value")
  else if sh && bool_decide (len d = 0) then
    Some (ValueError "num_samples should be a positive integer value")
  else None.

#[export] Instance runtime : Runtime := {|
  RngState := nat;
  Ext := Z * list string;
  Logger := string;
  random_seed_state := λ a, Z.to_nat (Z.abs a);
  randbelow := lcg_randbelow;
  randbelow_lt := lcg_randbelow_lt;
  torch_manual_seed := λ _ x, (Ok tt, x);
  np_random_seed := np_seed;
  getLogger := "root";
  logger_info := λ lg msg x,
    if String.eqb lg "closed" then (Raise (Failure "logger.info"), x)
    else (Ok tt, (x.1, x.2 ++ [msg]));
  DataLoader_check := loader_check
|}.

Definition note (line : string) (e : Env) : Env :=
  mkEnv (rng e) ((ext e).1, (ext e).2 ++ [line]).

(** Node [k] of [n] receives the training examples [j] with
    [j mod n = k]; the test set has [test_size] examples. *)
Definition load (test_size : nat) (n : Z) (a : float) (e : Env)
    : result (list Dataset * Dataset * list Z) * Env :=
  let train := Source "train" (2 * test_size) in
  let all := seqZ 0 (2 * Z.of_nat test_size) in
  let part k := Subset train (filter (λ j, j mod n = k) all) in
  (Ok (part <$> seqZ 0 n, Source "test" test_size, (λ j, j mod 10) <$> all),
   mkEnv (rng e) ((ext e).1 + 1, (ext e).2)).

Definition plot (fails : bool) (e : Env) : result unit * Env :=
  if fails then (Raise (Failure "visualize_data_distribution"), e)
  else (Ok tt, note "data_distribution.png" e).

Definition ring (n : Z) : list (Z * Z) := (λ i, (i, (i + 1) mod n)) <$> seqZ 0 n.

Definition fenics (test_size : nat) (plot_fails : bool) : Fenics := {|
  Labels := list Z;
  Graph := list (Z * Z);
  load_datasets_dirichlet := load test_size;
  print_class_distribution := λ _ _ e, (Ok tt, note "class distribution" e);
  visualize_data_distribution := λ _ _ _ _ _ e, plot plot_fails e;
  build_topology := λ n _ _ e, (Ok (ring n), e);
  visualize_and_save_topology := λ _ _ _ e, (Ok tt, note "topology.png" e)
|}.

(** Two states of the rest of the process with the numpy generator in the
    same state; the lines written so far may differ. *)
Definition same_generators (x y : Z * list string) : Prop := x.1 = y.1.

(** The environment with generator states [g] and [np] and log [lines]. *)
Definition env_of (g : nat) (np : Z) (lines : list string) : Env :=
  mkEnv g (np, lines).

(** A process that has drawn nothing and allocated nothing yet. *)
Definition world0 : World := mkWorld (env_of 0 0 []) [].

(** [DataModule(num_nodes, alpha, "ring", batch_size=.., random_seed=..)] *)
Definition make {FX : Fenics} (n : Z) (a : float) (bs seed : Z) (w : World)
    : result DataModule * World :=
  __init__ n a "ring" None "results" None bs seed w.

(** An instance as the constructor leaves it. *)
Definition fresh {FX : Fenics} (n : Z) (a : float) (bs seed : Z) : DataModule :=
  mkDataModule n a "ring" None "results" "root" bs seed
    None None None None None None None.

(** The state right after the construction in world [w]. *)
Definition built_in {FX : Fenics} (n : Z) (a : float) (bs seed : Z)
    (w : World) : State :=
  match make n a bs seed w with
  | (Ok self, w') => (self, w')
  | (Raise e, w') => (fresh n a bs seed, w')
  end.

Definition built {FX : Fenics} (n : Z) (a : float) (bs seed : Z) : State :=
  built_in n a bs seed world0.
End Sample.

(** ** Reaching the dictionary of training datasets

    The part of [setup] that only calls collaborators. *)

Section Collaborators.
Context `{RT : Runtime} `{FX : !Fenics}.

(** Loading, logging, plotting and the topology all return; [e5] is the
    environment after the topology has been saved. *)
Definition collaborators_return (dm : DataModule) (w : World)
    (tr : list Dataset) (te : Dataset) (lb : Labels) (gr : Graph) (e5 : Env)
    : Prop :=
  ∃ e1 e2 e3 e4,
    load_datasets_dirichlet (num_nodes dm) (alpha dm) (env w)
      = (Ok (tr, te, lb), e1) ∧
    print_class_distribution (Some tr) (logger dm) e1 = (Ok tt, e2) ∧
    visualize_data_distribution (Some tr) (num_nodes dm) class_names
      (output_dir dm) (logger dm) e2 = (Ok tt, e3) ∧
    build_topology (num_nodes dm) (topology dm) (topology_file dm) e3
      = (Ok gr, e4) ∧
    visualize_and_save_topology (Some gr) (topology dm) (output_dir dm) e4
      = (Ok tt, e5).

(** The instance at that point: datasets, labels, nodes and graph are
    assigned, the two dictionaries are not. *)
Definition loaded (dm : DataModule) (tr : list Dataset) (te : Dataset)
    (lb : Labels) (gr : Graph) : DataModule :=
  set_G gr (set_nodes (create_nodes (num_nodes dm)) (set_loaded tr te lb dm)).
End Collaborators.

(** ** What the collaborators read of the process

    The package's collaborators are not part of the sources.  Determinism
    across instances is stated for collaborators that read the process
    through the seeded generators: [same] relates two states of the rest of
    the process that agree on whatever they read. *)

Section Seeding.
Context `{RT : Runtime} `{FX : !Fenics}.
Variable same : Ext → Ext → Prop.

(** Two environments with the generator of [random] in the same state and
    the rest related by [same]. *)
Definition alike (e e' : Env) : Prop :=
  rng e = rng e' ∧ same (ext e) (ext e').

(** [f] returns the same value in two environments that are alike, and
    leaves them alike. *)
Definition reads_through {A} (f : Env → result A * Env) : Prop :=
  ∀ e e', alike e e' → (f e).1 = (f e').1 ∧ alike (f e).2 (f e').2.

(** [torch.manual_seed(seed); np.random.seed(seed)] brings every two states
    of the process to states related by [same]. *)
Definition seeding_fixes (seed : Z) : Prop :=
  ∀ x y x1 y1 x2 y2,
    torch_manual_seed seed x = (Ok tt, x1) →
    np_random_seed seed x1 = (Ok tt, x2) →
    torch_manual_seed seed y = (Ok tt, y1) →
    np_random_seed seed y1 = (Ok tt, y2) →
    same x2 y2.

Definition collaborators_read_through : Prop :=
  (∀ n a, reads_through (load_datasets_dirichlet n a)) ∧
  (∀ tds lg, reads_through (print_class_distribution tds lg)) ∧
  (∀ tds n names out lg,
     reads_through (visualize_data_distribution tds n names out lg)) ∧
  (∀ n topo file, reads_through (build_topology n topo file)) ∧
  (∀ g topo out, reads_through (visualize_and_save_topology g topo out)) ∧
  (∀ lg msg x y, same x y →
     (logger_info lg msg x).1 = (logger_info lg msg y).1 ∧
     same (logger_info lg msg x).2 (logger_info lg msg y).2).
End Seeding.

(** ** Topologies: fenics/topology/base.py *)

(** [s.replace(old, new)]: every occurrence of [old], found from the left
    and not overlapping the previous one, becomes [new].  An empty [old]
    occurs before every character and at the end. *)
Fixpoint starts_with (p s : string) : bool :=
  match p, s with
  | EmptyString, _ => true
  | String a p', String b s' => if Ascii.eqb a b then starts_with p' s' else false
  | String _ _, EmptyString => false
  end.

Fixpoint interleave (new s : string) : string :=
  match s with
  | EmptyString => new
  | String c rest => String.append new (String c (interleave new rest))
  end.

Fixpoint replace_from (old new : string) (skip : nat) (s : string) : string :=
  match s with
  | EmptyString => EmptyString
  | String c rest =>
      match skip with
      | S k => replace_from old new k rest
      | O =>
          if starts_with old s
          then String.append new
                 (replace_from old new (String.length old - 1) rest)
          else String c (replace_from old new 0 rest)
      end
  end.

Definition py_replace (old new s : string) : string :=
  match old with
  | EmptyString => interleave new s
  | String _ _ => replace_from old new 0 s
  end.

(** [old] occurs somewhere in [s]. *)
Definition occurs (old s : string) : Prop :=
  ∃ a b, s = String.append a (String.append old b).

Module TopologyBase.
(** An instance of a subclass: the name of its class and the attribute set
    by [__init__].  [build] is abstract and has no body here. *)
Record t : Type := mk {
  class_name : string;
  num_nodes : Z
}.

(** [TopologyBase.__init__], reached through a subclass named [cls]. *)
Definition __init__ (cls : string) (num_nodes : Z) : t := mk cls num_nodes.

(** [self.__class__.__name__.replace('Topology', '')] *)
Definition get_name (self : t) : string :=
  py_replace "Topology" "" (class_name self).
End TopologyBase.

(** A variant of the sample package whose loader returns one training
    dataset fewer than there are nodes. *)
Module SampleShort.
Definition fenics (test_size : nat) : Fenics := {|
  Labels := list Z;
  Graph := list (Z * Z);
  load_datasets_dirichlet := λ n a e, Sample.load test_size (n - 1) a e;
  print_class_distribution :=
    λ _ _ e, (Ok tt, Sample.note "class distribution" e);
  visualize_data_distribution := λ _ _ _ _ _ e, Sample.plot false e;
  build_topology := λ n _ _ e, (Ok (Sample.ring n), e);
  visualize_and_save_topology :=
    λ _ _ _ e, (Ok tt, Sample.note "topology.png" e)
|}.
End SampleShort.

(** * Properties *)

(** ** Lists: ranges, slices, shuffling *)

Lemma elem_of_py_range (n j : Z) : j ∈ py_range n ↔ 0 ≤ j < n.
Proof. unfold py_range. rewrite elem_of_seqZ. lia. Qed.

Lemma py_getitem_range (n i : Z) : i ∈ py_range n → py_getitem (py_range n) i = Ok i.
Proof.
  rewrite elem_of_py_range. intros Hi. unfold py_getitem, py_range.
  cbv zeta. repeat case_decide; try lia.
  rewrite lookup_seqZ_lt by lia. f_equal. lia.
Qed.

Section ShuffleFacts.
Context `{RT : Runtime}.

Lemma swap_lookup (x : list Z) (i j m : nat) :
  (i < length x)%nat → (j < length x)%nat →
  swap x i j !! m =
    x !! (if decide (m = i) then j else if decide (m = j) then i else m).
Proof.
  intros Hi Hj. unfold swap.
  destruct (lookup_lt_is_Some_2 x i Hi) as [xi Hxi].
  destruct (lookup_lt_is_Some_2 x j Hj) as [xj Hxj].
  rewrite Hxi, Hxj. rewrite !list_lookup_insert, !length_insert.
  repeat case_decide; destruct_and?; simplify_eq; try lia; congruence.
Qed.

Lemma swap_length (x : list Z) (i j : nat) : length (swap x i j) = length x.
Proof.
  unfold swap. destruct (x !! i), (x !! j); try done.
  by rewrite !length_insert.
Qed.

Lemma swap_Permutation (x : list Z) (i j : nat) : swap x i j ≡ₚ x.
Proof.
  destruct (decide (i < length x ∧ j < length x)%nat) as [[Hi Hj]|Hout].
  - apply Permutation_inj. split; [apply swap_length|].
    exists (λ m, if decide (m = i) then j else if decide (m = j) then i else m).
    split; [|intros m; by apply swap_lookup].
    intros a b. repeat case_decide; subst; congruence.
  - unfold swap.
    destruct (x !! i) eqn:Ei; [|done]. destruct (x !! j) eqn:Ej; [|done].
    apply lookup_lt_Some in Ei, Ej. lia.
Qed.

Lemma shuffle_steps_Permutation positions (x : list Z) (g : RngState) :
  (shuffle_steps positions x g).1 ≡ₚ x.
Proof.
  revert x g. induction positions as [|i rest IH]; intros x g; simpl; [done|].
  destruct (randbelow (S i) g) as [j g']. rewrite IH. apply swap_Permutation.
Qed.

(** [random.shuffle] rearranges the list and loses nothing. *)
Lemma shuffle_Permutation (x : list Z) (g : RngState) : (shuffle x g).1 ≡ₚ x.
Proof. apply shuffle_steps_Permutation. Qed.
End ShuffleFacts.

Section Slices.
Context {A : Type}.
Implicit Types x : list A.

Lemma split_bounds (size n i : Z) :
  0 ≤ size → 1 ≤ n → 0 ≤ i < n →
  0 ≤ size / n ∧ 0 ≤ i * (size / n) ≤ size ∧
  (i < n - 1 → (i + 1) * (size / n) ≤ size).
Proof.
  intros Hs Hn Hi.
  assert (0 ≤ size / n) by (apply Z.div_pos; lia).
  assert (n * (size / n) ≤ size) by (apply Z.mul_div_le; lia).
  assert (i * (size / n) ≤ n * (size / n))
    by (apply Z.mul_le_mono_nonneg_r; lia).
  assert (0 ≤ i * (size / n)) by (apply Z.mul_nonneg_nonneg; lia).
  repeat split; [done|lia|lia|intros Hi'].
  assert ((i + 1) * (size / n) ≤ n * (size / n))
    by (apply Z.mul_le_mono_nonneg_r; lia).
  lia.
Qed.

Lemma py_slice_in_range x (lo hi : Z) :
  0 ≤ lo ≤ hi → hi ≤ Z.of_nat (length x) →
  py_slice x lo hi = take (Z.to_nat (hi - lo)) (drop (Z.to_nat lo) x).
Proof.
  intros Hlo Hhi. unfold py_slice, slice_bound.
  repeat case_decide; try lia. by rewrite !Z.min_l by lia.
Qed.

Lemma node_slice_inner x n i :
  1 ≤ n → 0 ≤ i < n - 1 →
  node_slice x n i =
    take (Z.to_nat (Z.of_nat (length x) / n))
         (drop (Z.to_nat (i * (Z.of_nat (length x) / n))) x).
Proof.
  intros Hn Hi. unfold node_slice.
  destruct (split_bounds (Z.of_nat (length x)) n i) as (?&?&?); [lia..|].
  rewrite decide_True by lia. rewrite py_slice_in_range by lia.
  do 2 f_equal. lia.
Qed.

Lemma node_slice_last x n :
  1 ≤ n →
  node_slice x n (n - 1) =
    drop (Z.to_nat ((n - 1) * (Z.of_nat (length x) / n))) x.
Proof.
  intros Hn. unfold node_slice.
  destruct (split_bounds (Z.of_nat (length x)) n (n - 1)) as (?&?&?); [lia..|].
  rewrite decide_False by lia. rewrite py_slice_in_range by lia.
  apply take_ge. rewrite length_drop. lia.
Qed.

Lemma node_slice_inner_length x n i :
  1 ≤ n → 0 ≤ i < n - 1 →
  Z.of_nat (length (node_slice x n i)) = Z.of_nat (length x) / n.
Proof.
  intros Hn Hi. rewrite node_slice_inner by done.
  destruct (split_bounds (Z.of_nat (length x)) n i) as (?&?&?); [lia..|].
  rewrite length_take, length_drop. lia.
Qed.

Lemma node_slice_last_length x n :
  1 ≤ n →
  Z.of_nat (length (node_slice x n (n - 1))) =
    Z.of_nat (length x) / n + Z.of_nat (length x) mod n.
Proof.
  intros Hn. rewrite node_slice_last by done.
  destruct (split_bounds (Z.of_nat (length x)) n (n - 1)) as (?&?&?); [lia..|].
  rewrite length_drop.
  pose proof (Z.div_mod (Z.of_nat (length x)) n ltac:(lia)). lia.
Qed.

(** Position [p] of the list lies in the slice of node [i] at offset
    [p - i * split_size], and in no other slice. *)
Lemma node_slice_lookup x n i q :
  1 ≤ n → 0 ≤ i < n →
  node_slice x n i !! q =
    if decide (i < n - 1 ∧ Z.of_nat (length x) / n ≤ Z.of_nat q) then None
    else x !! (Z.to_nat (i * (Z.of_nat (length x) / n)) + q)%nat.
Proof.
  intros Hn Hi.
  destruct (split_bounds (Z.of_nat (length x)) n i) as (?&?&?); [lia..|].
  destruct (decide (i < n - 1)) as [Hin|Hlast].
  - rewrite node_slice_inner by lia. case_decide as Hq.
    + apply lookup_ge_None_2. rewrite length_take. lia.
    + rewrite lookup_take_lt by lia. by rewrite lookup_drop.
  - replace i with (n - 1) by lia. rewrite node_slice_last by lia.
    rewrite decide_False by lia. by rewrite lookup_drop.
Qed.

Lemma py_slice_sublist x (lo hi : Z) : py_slice x lo hi `sublist_of` x.
Proof.
  unfold py_slice. etrans; [apply sublist_take|apply sublist_drop].
Qed.

Lemma node_slice_sublist x n i : node_slice x n i `sublist_of` x.
Proof. apply py_slice_sublist. Qed.

(** No position of the list is left out. *)
Lemma node_slice_covers x n p (j : A) :
  1 ≤ n → x !! p = Some j → ∃ k, 0 ≤ k < n ∧ j ∈ node_slice x n k.
Proof.
  intros Hn Hp. pose proof (lookup_lt_Some _ _ _ Hp) as Hlt.
  set (size := Z.of_nat (length x)). set (ss := size / n).
  assert (0 ≤ ss) as Hss by (apply Z.div_pos; lia).
  destruct (decide (ss = 0 ∨ n - 1 ≤ Z.of_nat p / ss)) as [Hlast|Hinner].
  - exists (n - 1). split; [lia|]. apply list_elem_of_lookup.
    destruct (split_bounds size n (n - 1)) as (_&[? ?]&_); [lia..|].
    assert ((n - 1) * ss ≤ Z.of_nat p) as Hle.
    { destruct (decide (ss = 0)) as [Hz|Hnz]; [rewrite Hz; lia|].
      destruct Hlast as [?|Hq]; [done|]. assert (0 < ss) by lia.
      pose proof (Z.mul_div_le (Z.of_nat p) ss ltac:(lia)).
      assert ((n - 1) * ss ≤ (Z.of_nat p / ss) * ss)
        by (apply Z.mul_le_mono_nonneg_r; lia).
      lia. }
    exists (p - Z.to_nat ((n - 1) * ss))%nat.
    rewrite node_slice_lookup by lia. fold size ss.
    rewrite decide_False by lia.
    rewrite <-Hp. f_equal. lia.
  - assert (0 < ss) by lia.
    pose proof (Z.div_pos (Z.of_nat p) ss ltac:(lia) ltac:(lia)).
    exists (Z.of_nat p / ss). split; [lia|]. apply list_elem_of_lookup.
    pose proof (Z.mul_div_le (Z.of_nat p) ss ltac:(lia)).
    pose proof (Z.mod_pos_bound (Z.of_nat p) ss ltac:(lia)).
    pose proof (Z.div_mod (Z.of_nat p) ss ltac:(lia)).
    exists (Z.to_nat (Z.of_nat p mod ss)).
    rewrite node_slice_lookup by lia. fold size ss.
    rewrite decide_False by lia. rewrite <-Hp. f_equal. lia.
Qed.

(** No element of a duplicate-free list is in two slices. *)
Lemma node_slice_disjoint x n k k' (j : A) :
  1 ≤ n → NoDup x → 0 ≤ k < n → 0 ≤ k' < n →
  j ∈ node_slice x n k → j ∈ node_slice x n k' → k = k'.
Proof.
  intros Hn Hnd Hk Hk' [q Hq]%list_elem_of_lookup [q' Hq']%list_elem_of_lookup.
  rewrite node_slice_lookup in Hq, Hq' by lia.
  set (ss := Z.of_nat (length x) / n) in *.
  assert (0 ≤ ss) as Hss by (apply Z.div_pos; lia).
  case_decide as Hc; [done|]. case_decide as Hc'; [done|].
  pose proof (NoDup_lookup _ _ _ _ Hnd Hq Hq') as Hpos.
  destruct (split_bounds (Z.of_nat (length x)) n k) as (_&[? _]&_); [lia..|].
  destruct (split_bounds (Z.of_nat (length x)) n k') as (_&[? _]&_); [lia..|].
  fold ss in H, H0.
  destruct (Z.lt_trichotomy k k') as [Hlt|[Heq|Hgt]]; [|done|]; exfalso.
  - assert ((k + 1) * ss ≤ k' * ss) by (apply Z.mul_le_mono_nonneg_r; lia).
    lia.
  - assert ((k' + 1) * ss ≤ k * ss) by (apply Z.mul_le_mono_nonneg_r; lia).
    lia.
Qed.
End Slices.

(** ** Running [_create_test_loaders] and [setup] *)

Section SetupFacts.
Context `{RT : Runtime} `{FX : !Fenics}.
Variables (n : Z) (a : float) (t : string) (tf : option string)
          (od : string) (lg : Logger) (bs sd : Z).

Local Abbreviation inst := (mkDataModule n a t tf od lg bs sd).
Local Abbreviation loader := (loader_at n bs).
Local Abbreviation passing := (checks_pass n bs).

Local Arguments py_slice : simpl never.
Local Arguments py_getitem : simpl never.
Local Arguments py_range : simpl never.
Local Arguments shuffle : simpl never.
Local Arguments len : simpl never.

Ltac run :=
  unfold mbind, M_bind, mret, M_ret, attr, assign, lift, random_shuffle,
    call_ext, call; cbn.

(** One turn of the loop. *)
Lemma test_loader_for_run ti te i trs lb ns g nd d e h :
  test_loader_for ti (len te / n) i
    (inst trs (Some te) lb (Some ns) g nd (Some d), mkWorld e h) =
  match DataLoader_check (dl_dataset (loader te ti i)) bs false with
  | Some ex =>
      (Raise ex, (inst trs (Some te) lb (Some ns) g nd (Some d), mkWorld e h))
  | None =>
      match py_getitem ns i with
      | Ok node =>
          (Ok tt,
           (inst trs (Some te) lb (Some ns) g nd (Some (<[node:=length h]> d)),
            mkWorld e (h ++ [loader te ti i])))
      | Raise ex =>
          (Raise ex,
           (inst trs (Some te) lb (Some ns) g nd (Some d),
            mkWorld e (h ++ [loader te ti i])))
      end
  end.
Proof.
  unfold test_loader_for, loader_at, indices_at. run.
  case_decide; run; unfold new_DataLoader; cbn.
  all: destruct (DataLoader_check _ _ _); [done|]; cbn.
  all: destruct (py_getitem ns i); done.
Qed.

Local Arguments for_each : simpl never.

Lemma for_each_cons {A} (x : A) (rest : list A) (body : A → M unit) s :
  for_each (x :: rest) body s =
  match body x s with
  | (Ok _, s') => for_each rest body s'
  | (Raise ex, s') => (Raise ex, s')
  end.
Proof. reflexivity. Qed.

Lemma loop_inv ti te ks : ∀ trs lb ns g nd d e h s',
  for_each ks (test_loader_for ti (len te / n))
    (inst trs (Some te) lb (Some ns) g nd (Some d), mkWorld e h)
    = (Ok tt, s') →
  passing te ti ks.
Proof.
  induction ks as [|i ks IH]; intros trs lb ns g nd d e h s' Hrun;
    [constructor|].
  rewrite for_each_cons, test_loader_for_run in Hrun.
  destruct (DataLoader_check _ _ _) eqn:Hck; [done|].
  destruct (py_getitem ns i); [|done].
  constructor; [done|]. eapply IH, Hrun.
Qed.

Lemma loop_ok ti te ks : ∀ trs lb ns g nd d e h,
  passing te ti ks →
  (∀ i, i ∈ ks → py_getitem ns i = Ok i) →
  ∃ d',
    for_each ks (test_loader_for ti (len te / n))
      (inst trs (Some te) lb (Some ns) g nd (Some d), mkWorld e h) =
    (Ok tt, (inst trs (Some te) lb (Some ns) g nd (Some d'),
             mkWorld e (h ++ (loader te ti <$> ks)))) ∧
    (∀ k, k ∉ ks → d' !! k = d !! k) ∧
    (NoDup ks → ∀ p i, ks !! p = Some i → d' !! i = Some (length h + p)%nat).
Proof.
  induction ks as [|i ks IH]; intros trs lb ns g nd d e h Hck Hns.
  - exists d. cbn. rewrite app_nil_r. split_and!; [done..|]. by intros _ p i.
  - apply Forall_cons in Hck as [Hi Hck].
    destruct (IH trs lb ns g nd (<[i:=length h]> d) e (h ++ [loader te ti i]) Hck)
      as (d' & Hrun & Hout & Hin).
    { intros j Hj. apply Hns. by right. }
    exists d'. split_and!.
    + rewrite for_each_cons, test_loader_for_run, Hi.
      rewrite (Hns i) by left. rewrite Hrun. by rewrite <-app_assoc.
    + intros k Hk. apply not_elem_of_cons in Hk as [Hne Hk].
      rewrite Hout by done. by rewrite lookup_insert_ne.
    + intros Hnd p j Hp. apply NoDup_cons in Hnd as [Hi' Hnd].
      destruct p as [|p]; simplify_eq/=.
      * rewrite Hout by done. rewrite lookup_insert_eq. f_equal. lia.
      * rewrite (Hin Hnd p j Hp), length_app. simpl. f_equal. lia.
Qed.

(** [_create_test_loaders]: the shuffle, the division, then the loop. *)
Lemma create_test_loaders_run trs te lb ns g nd tl e h :
  _create_test_loaders (inst trs (Some te) lb (Some ns) g nd tl, mkWorld e h) =
  let e' := mkEnv (after_shuffle te e) (ext e) in
  if decide (n = 0) then
    (Raise ZeroDivisionError,
     (inst trs (Some te) lb (Some ns) g nd tl, mkWorld e' h))
  else
    for_each (py_range n) (test_loader_for (shuffled te e) (len te / n))
      (inst trs (Some te) lb (Some ns) g nd (Some ∅), mkWorld e' h).
Proof.
  unfold _create_test_loaders, shuffled, after_shuffle. run.
  destruct (shuffle _ _) as [ti g']. cbn. unfold py_floordiv.
  case_decide; done.
Qed.

(** The dictionary of the training datasets. *)
Lemma collect_run tr ks : ∀ acc te lb ns g nd tl w,
  (∀ k, k ∈ ks → ∃ d, py_getitem tr k = Ok d) →
  ∃ r, collect_node_datasets ks acc (inst (Some tr) te lb ns g nd tl, w) =
         (Ok r, (inst (Some tr) te lb ns g nd tl, w)) ∧
       (∀ k, k ∉ ks → r !! k = acc !! k) ∧
       (∀ k, k ∈ ks → ∃ d, py_getitem tr k = Ok d ∧ r !! k = Some d).
Proof.
  induction ks as [|i ks IH]; intros acc te lb ns g nd tl w Hks.
  - exists acc. split_and!; [done..|]. intros k Hk. by apply elem_of_nil in Hk.
  - destruct (Hks i) as [d Hd]; [by left|].
    destruct (IH (<[i:=d]> acc) te lb ns g nd tl w) as (r & Hrun & Hout & Hin).
    { intros k Hk. apply Hks. by right. }
    exists r. split_and!.
    + cbn [collect_node_datasets]. run. by rewrite Hd.
    + intros k Hk. apply not_elem_of_cons in Hk as [Hne Hk].
      rewrite Hout by done. by rewrite lookup_insert_ne.
    + intros k Hk. destruct (decide (k ∈ ks)) as [Hin'|Hout']; [by apply Hin|].
      apply elem_of_cons in Hk as [->|]; [|done].
      exists d. split; [done|]. rewrite Hout by done. apply lookup_insert_eq.
Qed.

Lemma collect_inv tr ks : ∀ acc te lb ns g nd tl w r s',
  collect_node_datasets ks acc (inst (Some tr) te lb ns g nd tl, w)
    = (Ok r, s') →
  ∀ k, k ∈ ks → ∃ d, py_getitem tr k = Ok d.
Proof.
  induction ks as [|i ks IH]; intros acc te lb ns g nd tl w r s' Hrun k Hk.
  - by apply elem_of_nil in Hk.
  - cbn [collect_node_datasets] in Hrun. revert Hrun. run.
    destruct (py_getitem tr i) as [d|] eqn:Hd; [|done]. intros Hrun.
    apply elem_of_cons in Hk as [->|Hk]; [eauto|]. eapply IH; eauto.
Qed.

Lemma node_datasets_of_unique tr nd1 nd2 :
  node_datasets_of n tr nd1 → node_datasets_of n tr nd2 → nd1 = nd2.
Proof.
  intros H1 H2. apply map_eq. intros k.
  destruct (decide (k ∈ py_range n)) as [Hk|Hk].
  - destruct (proj1 (H1 k) Hk) as (d1 & Hd1 & ->).
    destruct (proj1 (H2 k) Hk) as (d2 & Hd2 & ->). congruence.
  - by rewrite (proj2 (H1 k) Hk), (proj2 (H2 k) Hk).
Qed.

Lemma py_range_lookup (m : Z) p i : py_range m !! p = Some i → i = Z.of_nat p.
Proof. unfold py_range. rewrite lookup_seqZ. lia. Qed.

Local Arguments _create_test_loaders : simpl never.
Local Arguments collect_node_datasets : simpl never.

(** Once everything before the last line goes through, [setup] ends with
    the outcome of [logger.info] in the state [ready]. *)
Lemma setup_run e0 tr te lb gr e5 f1 f2 f3 f4 f5 f6 f7 h :
  setup_derives n a t tf od lg bs e0 tr te lb gr e5 →
  ∃ nd tl,
    node_datasets_of n tr nd ∧ loaders_from n h tl ∧
    setup (inst f1 f2 f3 f4 f5 f6 f7, mkWorld e0 h) =
      ((logger_info lg "Data module setup complete" (ext e5)).1,
       ready n a t tf od lg bs sd tr te lb gr nd tl e5
         (logger_info lg "Data module setup complete" (ext e5)).2 h).
Proof.
  intros (e1&e2&e3&e4&Hload&Hprint&Hplot&Hbuild&Hsave&Htr&Hn&Hck).
  destruct (collect_run tr (py_range n) ∅ (Some te) (Some lb)
              (Some (py_range n)) (Some gr) f6 f7 (mkWorld e5 h) Htr)
    as (nd & Hcollect & Hout & Hin).
  destruct (loop_ok (shuffled te e5) te (py_range n) (Some tr) (Some lb)
              (py_range n) (Some gr) (Some nd) ∅
              (mkEnv (after_shuffle te e5) (ext e5)) h Hck)
    as (tl & Hloop & Hout' & Hin').
  { intros i. apply py_getitem_range. }
  exists nd, tl. split_and!.
  - intros k. split; [apply Hin|]. intros Hk. by rewrite Hout.
  - intros k. split.
    + intros Hk. apply list_elem_of_lookup in Hk as [p Hp].
      rewrite (Hin' (NoDup_seqZ _ _) p k Hp).
      apply py_range_lookup in Hp as ->. by rewrite Nat2Z.id.
    + intros Hk. by rewrite Hout'.
  - unfold setup. run. rewrite Hload. cbn. rewrite Hprint. cbn.
    rewrite Hplot. cbn. rewrite Hbuild. cbn. rewrite Hsave. cbn.
    cbv [set_G set_nodes set_loaded]. cbn. unfold create_nodes.
    rewrite Hcollect. unfold set_node_datasets. cbn.
    rewrite create_test_loaders_run. cbn zeta.
    rewrite decide_False by done. rewrite Hloop. cbn.
    by destruct (logger_info _ _ _) as [r x6].
Qed.

Lemma setup_inv f1 f2 f3 f4 f5 f6 f7 e0 h s' :
  setup (inst f1 f2 f3 f4 f5 f6 f7, mkWorld e0 h) = (Ok tt, s') →
  ∃ tr te lb gr e5,
    setup_derives n a t tf od lg bs e0 tr te lb gr e5 ∧
    (logger_info lg "Data module setup complete" (ext e5)).1 = Ok tt.
Proof.
  unfold setup. run.
  destruct (load_datasets_dirichlet n a e0) as [[[[tr te] lb]|ex] e1] eqn:Hload;
    cbn; [|done].
  destruct (print_class_distribution (Some tr) lg e1) as [[[]|ex] e2] eqn:Hprint;
    cbn; [|done].
  destruct (visualize_data_distribution (Some tr) n class_names od lg e2)
    as [[[]|ex] e3] eqn:Hplot; cbn; [|done].
  destruct (build_topology n t tf e3) as [[gr|ex] e4] eqn:Hbuild; cbn; [|done].
  destruct (visualize_and_save_topology (Some gr) t od e4)
    as [[[]|ex] e5] eqn:Hsave; cbn; [|done].
  cbv [set_G set_nodes set_loaded]. cbn. unfold create_nodes.
  destruct (collect_node_datasets _ _ _) as [[nd|ex] s0] eqn:Hcollect; [|done].
  pose proof (collect_inv _ _ _ _ _ _ _ _ _ _ _ _ Hcollect) as Htr.
  destruct (collect_run tr (py_range n) ∅ (Some te) (Some lb)
              (Some (py_range n)) (Some gr) f6 f7 (mkWorld e5 h) Htr)
    as (nd' & Hcollect' & _).
  rewrite Hcollect' in Hcollect. simplify_eq. unfold set_node_datasets. cbn.
  rewrite create_test_loaders_run. cbn zeta.
  case_decide as Hn; [done|].
  destruct (for_each _ _ _) as [[[]|ex] s1] eqn:Hloop; [|done].
  pose proof (loop_inv _ _ _ _ _ _ _ _ _ _ _ _ Hloop) as Hck.
  destruct (loop_ok _ te (py_range n) (Some tr) (Some lb) (py_range n)
              (Some gr) (Some nd) ∅
              (mkEnv (after_shuffle te e5) (ext e5)) h Hck)
    as (tl & Hloop' & _).
  { intros i. apply py_getitem_range. }
  rewrite Hloop' in Hloop. simplify_eq. cbn.
  destruct (logger_info _ _ _) as [[[]|ex] x6] eqn:Hlog; [|done].
  intros _. exists tr, te, lb, gr, e5. split; [|by rewrite Hlog].
  exists e1, e2, e3, e4. split_and!; done.
Qed.

(** A successful [setup] ends in the state [ready]. *)
Lemma setup_ready f1 f2 f3 f4 f5 f6 f7 e0 h s' :
  setup (inst f1 f2 f3 f4 f5 f6 f7, mkWorld e0 h) = (Ok tt, s') →
  ∃ tr te lb gr e5 x6 nd tl,
    setup_derives n a t tf od lg bs e0 tr te lb gr e5 ∧
    logger_info lg "Data module setup complete" (ext e5) = (Ok tt, x6) ∧
    node_datasets_of n tr nd ∧ loaders_from n h tl ∧
    s' = ready n a t tf od lg bs sd tr te lb gr nd tl e5 x6 h.
Proof.
  intros Hrun.
  destruct (setup_inv _ _ _ _ _ _ _ _ _ _ Hrun) as (tr&te&lb&gr&e5&Hd&Hlog).
  destruct (setup_run _ _ _ _ _ _ f1 f2 f3 f4 f5 f6 f7 h Hd)
    as (nd & tl & Hnd & Htl & Hrun').
  rewrite Hrun in Hrun'.
  destruct (logger_info _ _ _) as [r x6] eqn:Hlg. simpl in *. simplify_eq.
  by exists tr, te, lb, gr, e5, x6, nd, tl.
Qed.
End SetupFacts.

(** ** The state after a successful [setup] *)

Section ReadyFacts.
Context `{RT : Runtime} `{FX : !Fenics}.

Lemma len_nonneg (d : Dataset) : 0 ≤ len d.
Proof. destruct d; simpl; lia. Qed.

Lemma shuffled_Permutation te (e : Env) : shuffled te e ≡ₚ py_range (len te).
Proof. apply shuffle_Permutation. Qed.

Lemma shuffled_length te (e : Env) : Z.of_nat (length (shuffled te e)) = len te.
Proof.
  rewrite (Permutation_length (shuffled_Permutation te e)).
  unfold py_range. rewrite length_seqZ. pose proof (len_nonneg te). lia.
Qed.

(** The slices are those of [node_slice]. *)
Lemma indices_at_node_slice n te (e : Env) i :
  indices_at n te (shuffled te e) i = node_slice (shuffled te e) n i.
Proof. unfold indices_at, node_slice. by rewrite shuffled_length. Qed.

(** The Test Split Map of the state [ready]. *)
Lemma test_split_ready n a t tf od lg bs sd tr te lb gr nd tl e5 x h k :
  loaders_from n h tl →
  let s := ready n a t tf od lg bs sd tr te lb gr nd tl e5 x h in
  test_split s.1 s.2 k =
    if decide (0 ≤ k < n) then Some (node_slice (shuffled te e5) n k)
    else None.
Proof.
  intros Htl. unfold test_split, ready. simpl.
  destruct (decide (0 ≤ k < n)) as [Hk|Hk].
  - rewrite (proj1 (Htl k)) by (by apply elem_of_py_range). simpl.
    rewrite lookup_app_r by lia.
    replace (length h + Z.to_nat k - length h)%nat with (Z.to_nat k) by lia.
    rewrite list_lookup_fmap. unfold py_range.
    rewrite lookup_seqZ_lt by lia. simpl.
    rewrite Z2Nat.id by lia. by rewrite indices_at_node_slice.
  - rewrite (proj2 (Htl k)); [done|]. by rewrite elem_of_py_range.
Qed.

(** [setup] does not touch the configuration. *)
Lemma setup_keeps_config dm0 w0 dm w :
  setup (dm0, w0) = (Ok tt, (dm, w)) → same_config dm0 dm.
Proof.
  destruct dm0 as [n a t tf od lg bs sd f1 f2 f3 f4 f5 f6 f7], w0 as [e0 h].
  intros Hrun. apply setup_ready in Hrun
    as (tr&te&lb&gr&e5&x6&nd&tl&_&_&_&_&Hs).
  unfold ready in Hs. simplify_eq. by repeat split.
Qed.

(** The test dataset, the number of nodes and the Test Split Map. *)
Lemma setup_test_split dm0 w0 dm w :
  setup (dm0, w0) = (Ok tt, (dm, w)) →
  num_nodes dm0 ≠ 0 ∧
  ∃ te ti,
    test_dataset dm = Some te ∧ ti ≡ₚ py_range (len te) ∧
    ∀ k, test_split dm w k =
           if decide (0 ≤ k < num_nodes dm0)
           then Some (node_slice ti (num_nodes dm0) k) else None.
Proof.
  destruct dm0 as [n a t tf od lg bs sd f1 f2 f3 f4 f5 f6 f7], w0 as [e0 h].
  intros Hrun. apply setup_ready in Hrun
    as (tr&te&lb&gr&e5&x6&nd&tl&Hd&_&_&Htl&Hs).
  destruct Hd as (?&?&?&?&_&_&_&_&_&_&Hn&_). split; [done|].
  exists te, (shuffled te e5). split_and!.
  - unfold ready in Hs. by simplify_eq.
  - apply shuffled_Permutation.
  - intros k.
    pose proof (test_split_ready n a t tf od lg bs sd tr te lb gr nd tl
                  e5 x6 h k Htl) as Hk.
    by rewrite <-Hs in Hk.
Qed.

(** The two dictionaries: their keys are the nodes [0 .. n-1]; the test
    loaders are the objects allocated by this [setup], in node order. *)
Lemma setup_dicts dm0 w0 dm w :
  setup (dm0, w0) = (Ok tt, (dm, w)) →
  ∃ tr nd tl,
    train_datasets dm = Some tr ∧
    node_datasets dm = Some nd ∧ node_datasets_of (num_nodes dm0) tr nd ∧
    test_loaders_per_node dm = Some tl ∧
    loaders_from (num_nodes dm0) (heap w0) tl ∧
    heap w0 `prefix_of` heap w ∧
    length (heap w) = (length (heap w0) + Z.to_nat (num_nodes dm0))%nat.
Proof.
  destruct dm0 as [n a t tf od lg bs sd f1 f2 f3 f4 f5 f6 f7], w0 as [e0 h].
  intros Hrun. apply setup_ready in Hrun
    as (tr&te&lb&gr&e5&x6&nd&tl&_&_&Hnd&Htl&Hs).
  unfold ready in Hs. simplify_eq. exists tr, nd, tl. simpl.
  split_and!; try done.
  - by apply prefix_app_r.
  - rewrite length_app, length_fmap. unfold py_range. by rewrite length_seqZ.
Qed.

(** The outcome of [setup] is a function of the configuration and the
    environment: the derived attributes and the heap it starts from play
    no role. *)
Lemma setup_determined dm w dm' w' dm1 w1 :
  same_config dm dm' → env w = env w' →
  setup (dm, w) = (Ok tt, (dm1, w1)) →
  ∃ dm1' w1',
    setup (dm', w') = (Ok tt, (dm1', w1')) ∧
    env w1' = env w1 ∧
    node_datasets dm1' = node_datasets dm1 ∧
    test_dataset dm1' = test_dataset dm1 ∧
    ∀ k, test_split dm1' w1' k = test_split dm1 w1 k.
Proof.
  destruct dm as [n a t tf od lg bs sd f1 f2 f3 f4 f5 f6 f7], w as [e0 h].
  destruct dm' as [n' a' t' tf' od' lg' bs' sd' g1 g2 g3 g4 g5 g6 g7],
           w' as [e0' h'].
  intros (?&?&?&?&?&?&?&?) He Hrun. simpl in *. simplify_eq.
  apply setup_ready in Hrun as (tr&te&lb&gr&e5&x6&nd&tl&Hd&Hlog&Hnd&Htl&Hs).
  destruct (setup_run n' a' t' tf' od' lg' bs' sd' _ _ _ _ _ _
              g1 g2 g3 g4 g5 g6 g7 h' Hd) as (nd' & tl' & Hnd' & Htl' & Hrun').
  rewrite Hlog in Hrun'. simpl in Hrun'.
  rewrite (node_datasets_of_unique _ _ _ _ Hnd' Hnd) in Hrun'.
  pose proof (λ k, test_split_ready n' a' t' tf' od' lg' bs' sd' tr te lb gr
                     nd tl e5 x6 h k Htl) as H1.
  pose proof (λ k, test_split_ready n' a' t' tf' od' lg' bs' sd' tr te lb gr
                     nd tl' e5 x6 h' k Htl') as H2.
  rewrite <-Hs in H1. unfold ready in Hs. simplify_eq.
  eexists _, _. split; [exact Hrun'|].
  split_and!; try done.
  intros k. etrans; [apply H2|]. symmetry. apply H1.
Qed.

(** Every step of [setup] up to its last line goes the same way in two
    environments that are alike, when the collaborators read the process
    through [same]. *)
Lemma setup_derives_alike (same : Ext → Ext → Prop) n a t tf od lg bs
    e0 e0' tr te lb gr e5 :
  collaborators_read_through same →
  alike same e0 e0' →
  setup_derives n a t tf od lg bs e0 tr te lb gr e5 →
  ∃ e5', setup_derives n a t tf od lg bs e0' tr te lb gr e5' ∧
         alike same e5 e5'.
Proof.
  intros (Hl & Hp & Hv & Hb & Hs & _) He0
    (e1&e2&e3&e4&Hload&Hprint&Hplot&Hbuild&Hsave&Htr&Hn&Hck).
  destruct (Hl n a _ _ He0) as [Hr1 He1]. rewrite Hload in Hr1, He1.
  destruct (load_datasets_dirichlet n a e0') as [r1 e1'] eqn:Hload'.
  simpl in Hr1, He1. subst r1.
  destruct (Hp (Some tr) lg _ _ He1) as [Hr2 He2]. rewrite Hprint in Hr2, He2.
  destruct (print_class_distribution (Some tr) lg e1') as [r2 e2'] eqn:Hprint'.
  simpl in Hr2, He2. subst r2.
  destruct (Hv (Some tr) n class_names od lg _ _ He2) as [Hr3 He3].
  rewrite Hplot in Hr3, He3.
  destruct (visualize_data_distribution (Some tr) n class_names od lg e2')
    as [r3 e3'] eqn:Hplot'.
  simpl in Hr3, He3. subst r3.
  destruct (Hb n t tf _ _ He3) as [Hr4 He4]. rewrite Hbuild in Hr4, He4.
  destruct (build_topology n t tf e3') as [r4 e4'] eqn:Hbuild'.
  simpl in Hr4, He4. subst r4.
  destruct (Hs (Some gr) t od _ _ He4) as [Hr5 He5]. rewrite Hsave in Hr5, He5.
  destruct (visualize_and_save_topology (Some gr) t od e4')
    as [r5 e5'] eqn:Hsave'.
  simpl in Hr5, He5. subst r5.
  exists e5'. split; [|done].
  exists e1', e2', e3', e4'. split_and!; try done.
  unfold shuffled in *. destruct He5 as [<- _]. done.
Qed.

(** The outcome of [setup] is the same in two environments that are
    alike. *)
Lemma setup_alike (same : Ext → Ext → Prop) dm w dm' w' dm1 w1 :
  collaborators_read_through same →
  same_config dm dm' → alike same (env w) (env w') →
  setup (dm, w) = (Ok tt, (dm1, w1)) →
  ∃ dm1' w1',
    setup (dm', w') = (Ok tt, (dm1', w1')) ∧
    node_datasets dm1' = node_datasets dm1 ∧
    ∀ k, test_split dm1' w1' k = test_split dm1 w1 k.
Proof.
  destruct dm as [n a t tf od lg bs sd f1 f2 f3 f4 f5 f6 f7], w as [e0 h].
  destruct dm' as [n' a' t' tf' od' lg' bs' sd' g1 g2 g3 g4 g5 g6 g7],
           w' as [e0' h'].
  intros Hread (?&?&?&?&?&?&?&?) He Hrun. simpl in *. simplify_eq.
  apply setup_ready in Hrun as (tr&te&lb&gr&e5&x6&nd&tl&Hd&Hlog&Hnd&Htl&Hs).
  destruct (setup_derives_alike same _ _ _ _ _ _ _ _ _ _ _ _ _ _ Hread He Hd)
    as (e5' & Hd' & Hrng & Hext).
  destruct (setup_run n' a' t' tf' od' lg' bs' sd' _ _ _ _ _ _
              g1 g2 g3 g4 g5 g6 g7 h' Hd') as (nd' & tl' & Hnd' & Htl' & Hrun').
  destruct Hread as (_ & _ & _ & _ & _ & Hlg).
  destruct (Hlg lg' "Data module setup complete" _ _ Hext) as [Hr _].
  rewrite Hlog in Hr. simpl in Hr. rewrite <-Hr in Hrun'.
  rewrite (node_datasets_of_unique _ _ _ _ Hnd' Hnd) in Hrun'.
  pose proof (λ k, test_split_ready n' a' t' tf' od' lg' bs' sd' tr te lb gr
                     nd tl e5 x6 h k Htl) as H1.
  pose proof (λ k, test_split_ready n' a' t' tf' od' lg' bs' sd' tr te lb gr
                     nd tl' e5'
                     (logger_info lg' "Data module setup complete" (ext e5')).2
                     h' k Htl') as H2.
  rewrite <-Hs in H1. unfold ready in Hs. simplify_eq.
  eexists _, _. split; [exact Hrun'|].
  split; [done|].
  intros k. etrans; [apply H2|]. symmetry. etrans; [apply H1|].
  unfold shuffled. by rewrite Hrng.
Qed.
End ReadyFacts.

(** The sample collaborators read the numpy generator and nothing else of
    the rest of the process, and the seeding sets it. *)
Lemma sample_seeding_fixes (seed : Z) :
  @seeding_fixes Sample.runtime Sample.same_generators seed.
Proof.
  intros x y x1 y1 x2 y2 _ Hx _ Hy. simpl in Hx, Hy.
  unfold Sample.np_seed in Hx, Hy. repeat case_decide; simplify_eq.
  reflexivity.
Qed.

Lemma sample_collaborators_read_through (test_size : nat) (plot_fails : bool) :
  @collaborators_read_through Sample.runtime
    (Sample.fenics test_size plot_fails) Sample.same_generators.
Proof.
  unfold collaborators_read_through, reads_through, alike,
    Sample.same_generators.
  split_and!; simpl.
  - intros n a e e' [Hr Hx]. unfold Sample.load. simpl. by rewrite Hr, Hx.
  - intros _ _ e e' [Hr Hx]. by rewrite Hr, Hx.
  - intros _ _ _ _ _ e e' [Hr Hx]. unfold Sample.plot.
    destruct plot_fails; simpl; by rewrite ?Hr, ?Hx.
  - intros n _ _ e e' [Hr Hx]. by rewrite Hr, Hx.
  - intros _ _ _ e e' [Hr Hx]. by rewrite Hr, Hx.
  - intros lg msg x y Hx. by destruct (String.eqb lg "closed").
Qed.

(** A run is determined by its result and its final state. *)
Lemma run_ok `{RT : Runtime} `{FX : !Fenics} {A} (m : M A) (s : State) (a : A) :
  (m s).1 = Ok a → m s = (Ok a, ((m s).2.1, (m s).2.2)).
Proof. destruct (m s) as [r [dm w]]. simpl. by intros ->. Qed.

(** ** Where [setup] stops *)

Section SetupPaths.
Context `{RT : Runtime} `{FX : !Fenics}.
Variables (n : Z) (a : float) (t : string) (tf : option string)
          (od : string) (lg : Logger) (bs sd : Z).

Local Abbreviation inst := (mkDataModule n a t tf od lg bs sd).

Local Arguments py_slice : simpl never.
Local Arguments py_getitem : simpl never.
Local Arguments py_range : simpl never.
Local Arguments shuffle : simpl never.
Local Arguments len : simpl never.
Local Arguments for_each : simpl never.
Local Arguments _create_test_loaders : simpl never.

(** After the collaborators have returned, what is left of [setup] is the
    dictionary of training datasets, the test loaders and the last log
    line. *)
Lemma setup_after_collaborators f1 f2 f3 f4 f5 f6 f7 e0 h tr te lb gr e5 :
  collaborators_return (inst f1 f2 f3 f4 f5 f6 f7) (mkWorld e0 h)
    tr te lb gr e5 →
  setup (inst f1 f2 f3 f4 f5 f6 f7, mkWorld e0 h) =
    match collect_node_datasets (py_range n) ∅
            (inst (Some tr) (Some te) (Some lb) (Some (py_range n)) (Some gr)
               f6 f7, mkWorld e5 h) with
    | (Ok nd, s) =>
        match _create_test_loaders (set_node_datasets nd s.1, s.2) with
        | (Ok _, s') =>
            call_ext (logger_info (logger s'.1) "Data module setup complete") s'
        | (Raise ex, s') => (Raise ex, s')
        end
    | (Raise ex, s) => (Raise ex, s)
    end.
Proof.
  intros (e1&e2&e3&e4&Hload&Hprint&Hplot&Hbuild&Hsave). simpl in *.
  unfold setup, mbind, M_bind, mret, M_ret, attr, assign, lift, call_ext, call.
  cbn. rewrite Hload. cbn. rewrite Hprint. cbn. rewrite Hplot. cbn.
  rewrite Hbuild. cbn. rewrite Hsave. cbn.
  cbv [set_G set_nodes set_loaded]. cbn [num_nodes]. unfold create_nodes.
  destruct (collect_node_datasets _ _ _) as [[nd|ex] s]; [|done].
  by destruct (_create_test_loaders _) as [[[]|ex] s'].
Qed.

Lemma py_getitem_raises {A} (x : list A) (i : Z) (ex : exn) :
  py_getitem x i = Raise ex → ex = IndexError.
Proof.
  unfold py_getitem. cbv zeta. case_decide; [congruence|].
  destruct (x !! _); congruence.
Qed.

(** The comprehension leaves the state alone and can only fail with
    [IndexError]. *)
Lemma collect_outcome tr ks : ∀ acc te lb ns g nd tl w,
  ∃ r, collect_node_datasets ks acc (inst (Some tr) te lb ns g nd tl, w) =
         (r, (inst (Some tr) te lb ns g nd tl, w)) ∧
       (r = Raise IndexError ∨ ∃ d, r = Ok d).
Proof.
  induction ks as [|i ks IH]; intros acc te lb ns g nd tl w.
  - exists (Ok acc). split; [done|]. right. by eexists.
  - destruct (py_getitem tr i) as [d|ex] eqn:Hi.
    + destruct (IH (<[i:=d]> acc) te lb ns g nd tl w) as (r & Hrun & Hr).
      exists r. split; [|done].
      cbn [collect_node_datasets]. unfold mbind, M_bind, attr, lift. cbn.
      by rewrite Hi.
    + apply py_getitem_raises in Hi as Hex. subst ex.
      exists (Raise IndexError). split; [|by left].
      cbn [collect_node_datasets]. unfold mbind, M_bind, attr, lift. cbn.
      by rewrite Hi.
Qed.

Lemma collect_short tr ks acc te lb ns g nd tl w k :
  k ∈ ks → py_getitem tr k = Raise IndexError →
  collect_node_datasets ks acc (inst (Some tr) te lb ns g nd tl, w) =
    (Raise IndexError, (inst (Some tr) te lb ns g nd tl, w)).
Proof.
  intros Hk Hfail.
  destruct (collect_outcome tr ks acc te lb ns g nd tl w) as (r & Hrun & Hr).
  destruct Hr as [->|[d ->]]; [done|].
  destruct (collect_inv _ _ _ _ _ _ _ _ tr ks acc te lb ns g nd tl w _ _
              Hrun k Hk) as [d' Hd'].
  congruence.
Qed.

Lemma py_getitem_past_end {A} (x : list A) :
  py_getitem x (Z.of_nat (length x)) = Raise IndexError.
Proof.
  unfold py_getitem. cbv zeta. repeat case_decide; try lia; try done.
  rewrite Nat2Z.id. by rewrite lookup_ge_None_2.
Qed.

(** The loop over the nodes never touches the dictionary of node
    datasets, however it ends. *)
Lemma loop_keeps_node_datasets ti te ks : ∀ trs lb ns g nd d e h,
  node_datasets
    (for_each ks (test_loader_for ti (len te / n))
       (inst trs (Some te) lb (Some ns) g nd (Some d), mkWorld e h)).2.1 = nd.
Proof.
  induction ks as [|i ks IH]; intros trs lb ns g nd d e h; [done|].
  rewrite for_each_cons, test_loader_for_run.
  destruct (DataLoader_check _ _ _); [done|].
  destruct (py_getitem ns i); [apply IH|done].
Qed.

(** How a [setup] started on an instance without dictionaries can end:
    either it raised before the dictionary of node datasets was assigned,
    and both dictionaries are still [None]; or every collaborator returned
    and the dictionary was assigned, whatever happened afterwards. *)
Lemma setup_outcome f1 f2 f3 f4 f5 e0 h r dm' w' :
  setup (inst f1 f2 f3 f4 f5 None None, mkWorld e0 h) = (r, (dm', w')) →
  (r ≠ Ok tt ∧ node_datasets dm' = None ∧ test_loaders_per_node dm' = None) ∨
  (∃ tr te lb gr e5 nd,
     collaborators_return (inst f1 f2 f3 f4 f5 None None) (mkWorld e0 h)
       tr te lb gr e5 ∧
     node_datasets_of n tr nd ∧
     node_datasets dm' = Some nd).
Proof.
  intros Hrun. pose proof Hrun as Hrun'. revert Hrun'.
  unfold setup, mbind, M_bind, mret, M_ret, attr, assign, lift, call_ext, call.
  cbn.
  destruct (load_datasets_dirichlet n a e0) as [[[[tr te] lb]|ex] e1] eqn:Hload;
    cbn; [|intros; simplify_eq; by left].
  destruct (print_class_distribution (Some tr) lg e1) as [[[]|ex] e2] eqn:Hprint;
    cbn; [|intros; simplify_eq; by left].
  destruct (visualize_data_distribution (Some tr) n class_names od lg e2)
    as [[[]|ex] e3] eqn:Hplot; cbn; [|intros; simplify_eq; by left].
  destruct (build_topology n t tf e3) as [[gr|ex] e4] eqn:Hbuild; cbn;
    [|intros; simplify_eq; by left].
  destruct (visualize_and_save_topology (Some gr) t od e4)
    as [[[]|ex] e5] eqn:Hsave; cbn; [|intros; simplify_eq; by left].
  intros _.
  assert (collaborators_return (inst f1 f2 f3 f4 f5 None None) (mkWorld e0 h)
            tr te lb gr e5) as Hret.
  { exists e1, e2, e3, e4. by split_and!. }
  rewrite (setup_after_collaborators _ _ _ _ _ _ _ _ _ _ _ _ _ _ Hret)
    in Hrun.
  destruct (collect_outcome tr (py_range n) ∅ (Some te) (Some lb)
              (Some (py_range n)) (Some gr) None None (mkWorld e5 h))
    as (rc & Hcollect & Hrc).
  rewrite Hcollect in Hrun. destruct Hrc as [->|[nd ->]].
  { simplify_eq. by left. }
  right. exists tr, te, lb, gr, e5, nd. split_and!; [done| |].
  - pose proof (collect_inv _ _ _ _ _ _ _ _ _ _ _ _ _ _ _ _ _ _ _ _ Hcollect)
      as Htr.
    destruct (collect_run n a t tf od lg bs sd tr (py_range n) ∅ (Some te)
                (Some lb) (Some (py_range n)) (Some gr) None None
                (mkWorld e5 h) Htr) as (nd' & Hcollect' & Hout & Hin).
    rewrite Hcollect' in Hcollect. simplify_eq.
    intros k. split; [apply Hin|]. intros Hk. by rewrite Hout.
  - revert Hrun. unfold set_node_datasets. cbn [fst snd].
    cbn [num_nodes alpha topology topology_file output_dir logger batch_size
         random_seed train_datasets test_dataset labels nodes G node_datasets
         test_loaders_per_node].
    rewrite create_test_loaders_run. cbv zeta.
    case_decide; [by intros; simplify_eq|].
    pose proof (loop_keeps_node_datasets (shuffled te e5) te (py_range n)
                  (Some tr) (Some lb) (py_range n) (Some gr) (Some nd) ∅
                  (mkEnv (after_shuffle te e5) (ext e5)) h) as Hkeep.
    destruct (for_each _ _ _) as [[[]|ex] [dm1 w1]]; simpl in Hkeep.
    + unfold call_ext, call. cbn.
      destruct (logger_info _ _ _) as [rl x6]. intros. by simplify_eq.
    + intros. by simplify_eq.
Qed.
End SetupPaths.

(** * The claims *)

(** C1.  After [setup] with at least one node, the Test Split Map partitions
    the index range of the test set: exactly the nodes [0 .. num_nodes-1]
    have a sequence; every test index occurs in the sequence of some node;
    no sequence repeats an index or holds anything but test indices; and no
    index occurs in the sequences of two nodes. *)
Theorem test_split_partition `{RT : Runtime} `{FX : !Fenics}
    (dm0 dm : DataModule) (w0 w : World) :
  setup (dm0, w0) = (Ok tt, (dm, w)) →
  1 ≤ num_nodes dm0 →
  ∃ te,
    test_dataset dm = Some te ∧
    (∀ k, is_Some (test_split dm w k) ↔ 0 ≤ k < num_nodes dm0) ∧
    (∀ j, 0 ≤ j < len te → ∃ k idx, test_split dm w k = Some idx ∧ j ∈ idx) ∧
    (∀ k idx, test_split dm w k = Some idx →
       NoDup idx ∧ ∀ j, j ∈ idx → 0 ≤ j < len te) ∧
    (∀ k k' idx idx' j,
       test_split dm w k = Some idx → test_split dm w k' = Some idx' →
       j ∈ idx → j ∈ idx' → k = k').
Proof.
  intros Hrun Hn.
  destruct (setup_test_split _ _ _ _ Hrun) as (_ & te & ti & Hte & Hperm & Hsplit).
  assert (NoDup ti) as Hnd by (rewrite Hperm; apply NoDup_seqZ).
  assert (∀ j, j ∈ ti ↔ 0 ≤ j < len te) as Hin
    by (intros j; rewrite Hperm; apply elem_of_py_range).
  exists te. split_and!; [done|..].
  - intros k. rewrite Hsplit. case_decide; [by split; [|eauto]|].
    split; [by intros [? ?]|done].
  - intros j Hj. apply Hin, list_elem_of_lookup in Hj as [p Hp].
    destruct (node_slice_covers ti (num_nodes dm0) p j Hn Hp) as (k & Hk & Hjk).
    exists k, (node_slice ti (num_nodes dm0) k). split; [|done].
    rewrite Hsplit. by rewrite decide_True.
  - intros k idx. rewrite Hsplit. case_decide; [|done]. intros [= <-].
    pose proof (node_slice_sublist ti (num_nodes dm0) k) as Hsub. split.
    + by eapply sublist_NoDup.
    + intros j Hj. apply Hin. by eapply elem_of_sublist.
  - intros k k' idx idx' j. rewrite !Hsplit.
    case_decide; [|done]. case_decide; [|done]. intros [= <-] [= <-].
    by apply node_slice_disjoint.
Qed.

Lemma test_split_partition_witness :
  let FX := Sample.fenics 4 false in
  let s0 := Sample.built 2 0.5%float 32 0 in
  let s := (setup s0).2 in
  ∃ te,
    test_dataset s.1 = Some te ∧
    (∀ k, is_Some (test_split s.1 s.2 k) ↔ 0 ≤ k < num_nodes s0.1) ∧
    (∀ j, 0 ≤ j < len te → ∃ k idx, test_split s.1 s.2 k = Some idx ∧ j ∈ idx) ∧
    (∀ k idx, test_split s.1 s.2 k = Some idx →
       NoDup idx ∧ ∀ j, j ∈ idx → 0 ≤ j < len te) ∧
    (∀ k k' idx idx' j,
       test_split s.1 s.2 k = Some idx → test_split s.1 s.2 k' = Some idx' →
       j ∈ idx → j ∈ idx' → k = k').
Proof.
  intros FX s0 s.
  apply (test_split_partition s0.1 s.1 s0.2 s.2).
  - apply (run_ok setup s0). vm_compute. reflexivity.
  - vm_compute. discriminate.
Defined.

(** C2.  After [setup] with at least one node, every node but the last has
    [N div num_nodes] test indices and the last one has the remainder on
    top, so two nodes differ by at most [num_nodes - 1]; with three nodes
    and a hundred test examples the sizes are 33, 33 and 34. *)
Theorem test_split_sizes `{RT : Runtime} `{FX : !Fenics}
    (dm0 dm : DataModule) (w0 w : World) :
  setup (dm0, w0) = (Ok tt, (dm, w)) →
  1 ≤ num_nodes dm0 →
  ∃ te,
    test_dataset dm = Some te ∧
    (∀ k, 0 ≤ k < num_nodes dm0 - 1 →
       ∃ idx, test_split dm w k = Some idx ∧
              Z.of_nat (length idx) = len te / num_nodes dm0) ∧
    (∃ idx, test_split dm w (num_nodes dm0 - 1) = Some idx ∧
            Z.of_nat (length idx) =
              len te / num_nodes dm0 + len te mod num_nodes dm0) ∧
    (∀ k k' idx idx',
       test_split dm w k = Some idx → test_split dm w k' = Some idx' →
       Z.of_nat (length idx) - Z.of_nat (length idx') ≤ num_nodes dm0 - 1) ∧
    (num_nodes dm0 = 3 → len te = 100 →
       (λ k, length <$> test_split dm w k) <$> [0; 1; 2] =
         [Some 33%nat; Some 33%nat; Some 34%nat]).
Proof.
  intros Hrun Hn.
  destruct (setup_test_split _ _ _ _ Hrun) as (_ & te & ti & Hte & Hperm & Hsplit).
  assert (Z.of_nat (length ti) = len te) as Hlen.
  { rewrite (Permutation_length Hperm). unfold py_range.
    rewrite length_seqZ. pose proof (len_nonneg te). lia. }
  remember (num_nodes dm0) as n eqn:En.
  assert (∀ k, 0 ≤ k < n - 1 →
            test_split dm w k = Some (node_slice ti n k) ∧
            Z.of_nat (length (node_slice ti n k)) = len te / n) as Hinner.
  { intros k Hk. rewrite Hsplit, decide_True by lia.
    by rewrite node_slice_inner_length, Hlen by lia. }
  assert (test_split dm w (n - 1) = Some (node_slice ti n (n - 1)) ∧
          Z.of_nat (length (node_slice ti n (n - 1))) =
            len te / n + len te mod n) as Hlast.
  { rewrite Hsplit, decide_True by lia.
    by rewrite node_slice_last_length, Hlen by lia. }
  assert (∀ k idx, test_split dm w k = Some idx →
            len te / n ≤ Z.of_nat (length idx) ≤ len te / n + len te mod n)
    as Hbounds.
  { intros k idx Hk. pose proof (Z.mod_pos_bound (len te) n ltac:(lia)).
    rewrite Hsplit in Hk. case_decide; [|done].
    destruct (decide (k < n - 1)) as [Hlt|Hge].
    - destruct (Hinner k ltac:(lia)) as [Hk' Hl]. rewrite Hsplit in Hk'.
      rewrite decide_True in Hk' by lia. simplify_eq. lia.
    - replace k with (n - 1) in * by lia. destruct Hlast as [Hk' Hl].
      rewrite Hsplit in Hk'. rewrite decide_True in Hk' by lia.
      simplify_eq. lia. }
  exists te. split_and!; [done|..].
  - intros k Hk. destruct (Hinner k Hk). eauto.
  - destruct Hlast. eauto.
  - intros k k' idx idx' Hk Hk'.
    pose proof (Hbounds k idx Hk). pose proof (Hbounds k' idx' Hk').
    pose proof (Z.mod_pos_bound (len te) n ltac:(lia)). lia.
  - intros Hn3 HN. subst n. rewrite Hn3, HN in *.
    destruct (Hinner 0 ltac:(lia)) as [E0 H0].
    destruct (Hinner 1 ltac:(lia)) as [E1 H1].
    destruct Hlast as [E2 H2].
    change (3 - 1) with 2 in *.
    change (100 / 3) with 33 in *. change (100 mod 3) with 1 in *.
    cbn [fmap list_fmap]. rewrite E0, E1, E2. cbn [fmap option_fmap option_map].
    repeat f_equal; lia.
Qed.

Lemma test_split_sizes_witness :
  let FX := Sample.fenics 100 false in
  let s0 := Sample.built 3 0.5%float 32 42 in
  let s := (setup s0).2 in
  ∃ te,
    test_dataset s.1 = Some te ∧
    (∀ k, 0 ≤ k < num_nodes s0.1 - 1 →
       ∃ idx, test_split s.1 s.2 k = Some idx ∧
              Z.of_nat (length idx) = len te / num_nodes s0.1) ∧
    (∃ idx, test_split s.1 s.2 (num_nodes s0.1 - 1) = Some idx ∧
            Z.of_nat (length idx) =
              len te / num_nodes s0.1 + len te mod num_nodes s0.1) ∧
    (∀ k k' idx idx',
       test_split s.1 s.2 k = Some idx → test_split s.1 s.2 k' = Some idx' →
       Z.of_nat (length idx) - Z.of_nat (length idx') ≤ num_nodes s0.1 - 1) ∧
    (num_nodes s0.1 = 3 → len te = 100 →
       (λ k, length <$> test_split s.1 s.2 k) <$> [0; 1; 2] =
         [Some 33%nat; Some 33%nat; Some 34%nat]).
Proof.
  intros FX s0 s.
  apply (test_split_sizes s0.1 s.1 s0.2 s.2).
  - apply (run_ok setup s0). vm_compute. reflexivity.
  - vm_compute. discriminate.
Defined.

(** C3, as stated, fails: the constructor has no validation.  With zero
    nodes, a negative [alpha] and a zero batch size it returns an instance
    holding exactly these values. *)
Lemma init_accepts_invalid_configuration :
  (Sample.make (FX := Sample.fenics 4 false) 0 (-1)%float 0 0 Sample.world0).1 =
    Ok (Sample.fresh 0 (-1)%float 0 0).
Proof. reflexivity. Qed.

(** C3, amended.  The constructor checks nothing about [num_nodes], [alpha]
    and [batch_size]: whether it returns does not depend on them, and when
    the two seeding calls that can fail return, it returns an instance that
    stores the configuration as given, with every derived attribute [None];
    the only effect on the process is the seeding of the three generators,
    no dataset is touched. *)
Theorem init_stores_configuration_unchecked `{RT : Runtime} `{FX : !Fenics}
    (n : Z) (a : float) (t : string) (tf : option string) (od : string)
    (lgo : option Logger) (bs sd : Z) (w : World) (x x' : Ext) :
  torch_manual_seed sd (ext (env w)) = (Ok tt, x) →
  np_random_seed sd x = (Ok tt, x') →
  __init__ n a t tf od lgo bs sd w =
    (Ok (mkDataModule n a t tf od (default getLogger lgo) bs sd
           None None None None None None None),
     mkWorld (mkEnv (random_seed_state sd) x') (heap w)) ∧
  ∀ n' a' bs',
    is_ok (__init__ n' a' t tf od lgo bs' sd w).1 = true ∧
    (__init__ n' a' t tf od lgo bs' sd w).2 = (__init__ n a t tf od lgo bs sd w).2.
Proof.
  intros Htorch Hnp. unfold __init__. rewrite Htorch, Hnp. by split.
Qed.

Lemma init_stores_configuration_unchecked_witness :
  let FX := Sample.fenics 4 false in
  __init__ 0 (-1)%float "ring" None "results" None (-5) 7 Sample.world0 =
    (Ok (Sample.fresh 0 (-1)%float (-5) 7),
     mkWorld (Sample.env_of 7 7 []) []) ∧
  ∀ n' a' bs',
    is_ok (__init__ n' a' "ring" None "results" None bs' 7 Sample.world0).1 = true ∧
    (__init__ n' a' "ring" None "results" None bs' 7 Sample.world0).2 =
      (__init__ 0 (-1)%float "ring" None "results" None (-5) 7 Sample.world0).2.
Proof.
  intros FX.
  apply (init_stores_configuration_unchecked 0 (-1)%float "ring" None "results"
           None (-5) 7 Sample.world0 (0, []) (7, [])); reflexivity.
Defined.

(** C5, as stated, fails: an accessor need not fail before [setup] has
    completed.  With zero nodes [setup] raises [ZeroDivisionError] after it
    has assigned the dictionary of node datasets, and on the instance it
    leaves [get_data_sizes] returns the empty dictionary. *)
Lemma data_sizes_returned_after_failed_setup :
  let FX := Sample.fenics 4 false in
  let r := setup (Sample.built 0 0.5%float 32 0) in
  r.1 = Raise ZeroDivisionError ∧
  (get_data_sizes r.2).1 = Ok ∅.
Proof. intros FX r. split; vm_compute; reflexivity. Qed.

(** C5, amended.  On an instance on which [setup] has not been called, each
    of the four accessors raises at once, for every node identifier and in
    every state of the process, and changes nothing.  After a call of
    [setup] on such an instance, whatever its outcome, there are two cases.
    Either [setup] raised before it assigned the dictionary of node
    datasets, and the four accessors still fail in the same way; or every
    collaborator had returned and the dictionary was assigned, and then
    [get_data_sizes] returns the sizes of the assigned datasets, whether or
    not [setup] went on to complete. *)
Theorem accessors_fail_until_datasets_assigned `{RT : Runtime} `{FX : !Fenics}
    (n : Z) (a : float) (t : string) (tf : option string) (od : string)
    (lgo : option Logger) (bs sd : Z) (w0 w1 : World) (dm : DataModule) :
  __init__ n a t tf od lgo bs sd w0 = (Ok dm, w1) →
  let fails (self : DataModule) :=
    ∀ (node_id : Z) (w : World),
      get_train_loader node_id (self, w) = (Raise TypeError, (self, w)) ∧
      get_test_loader node_id (self, w) = (Raise TypeError, (self, w)) ∧
      get_data_sizes (self, w) = (Raise AttributeError, (self, w)) ∧
      calculate_selection_probabilities (self, w) =
        (Raise AttributeError, (self, w)) in
  fails dm ∧
  ∀ (w : World) (r : result unit) (dm' : DataModule) (w' : World),
    setup (dm, w) = (r, (dm', w')) →
    (r ≠ Ok tt ∧ fails dm') ∨
    (∃ tr te lb gr e5 nd,
       collaborators_return dm w tr te lb gr e5 ∧
       node_datasets_of n tr nd ∧
       node_datasets dm' = Some nd ∧
       ∀ w'' : World,
         get_data_sizes (dm', w'') = (Ok (len <$> nd), (dm', w''))).
Proof.
  intros Hinit fails. unfold __init__ in Hinit.
  destruct (torch_manual_seed _ _) as [[[]|ex] x]; [|done].
  destruct (np_random_seed _ _) as [[[]|ex] x']; [|done].
  simplify_eq.
  assert (∀ self, node_datasets self = None →
            test_loaders_per_node self = None → fails self) as Hfails.
  { intros self Hnd Htl node_id w.
    unfold get_train_loader, get_test_loader, get_data_sizes,
      calculate_selection_probabilities, mbind, M_bind, attr, lift.
    simpl. by rewrite Hnd, Htl. }
  split; [by apply Hfails|].
  intros [e0 h] r dm' w' Hrun.
  destruct (setup_outcome _ _ _ _ _ _ _ _ _ _ _ _ _ _ _ _ _ _ Hrun)
    as [(Hr & Hnd & Htl)|(tr & te & lb & gr & e5 & nd & Hret & Hof & Hnd)].
  - left. split; [done|]. by apply Hfails.
  - right. exists tr, te, lb, gr, e5, nd. split_and!; try done.
    intros w''. unfold get_data_sizes, mbind, M_bind, attr, mret, M_ret.
    simpl. by rewrite Hnd.
Qed.

Lemma accessors_fail_until_datasets_assigned_witness :
  let RT := Sample.runtime in
  let FX := Sample.fenics 4 false in
  let s0 := Sample.built 0 0.5%float 32 0 in
  let fails (self : @DataModule RT FX) :=
    ∀ (node_id : Z) (w : @World RT),
      get_train_loader node_id (self, w) = (Raise TypeError, (self, w)) ∧
      get_test_loader node_id (self, w) = (Raise TypeError, (self, w)) ∧
      get_data_sizes (self, w) = (Raise AttributeError, (self, w)) ∧
      calculate_selection_probabilities (self, w) =
        (Raise AttributeError, (self, w)) in
  fails s0.1 ∧
  ∀ (w : @World RT) (r : result unit) (dm' : @DataModule RT FX)
    (w' : @World RT),
    setup (s0.1, w) = (r, (dm', w')) →
    (r ≠ Ok tt ∧ fails dm') ∨
    (∃ tr te lb gr e5 nd,
       collaborators_return s0.1 w tr te lb gr e5 ∧
       node_datasets_of 0 tr nd ∧
       node_datasets dm' = Some nd ∧
       ∀ w'' : @World RT,
         get_data_sizes (dm', w'') = (Ok (len <$> nd), (dm', w''))).
Proof.
  intros RT FX s0.
  apply (accessors_fail_until_datasets_assigned 0 0.5%float "ring" None
           "results" None 32 0 Sample.world0 s0.2 s0.1).
  reflexivity.
Defined.

(** C6.  After [setup], a node identifier outside [0 .. num_nodes-1] makes
    [get_train_loader] and [get_test_loader] raise [KeyError] carrying that
    identifier, in every state of the process, and nothing changes: no
    loader is allocated, the instance is the same. *)
Theorem unknown_node_rejected `{RT : Runtime} `{FX : !Fenics}
    (dm0 dm : DataModule) (w0 w : World) (node_id : Z) :
  setup (dm0, w0) = (Ok tt, (dm, w)) →
  ¬ (0 ≤ node_id < num_nodes dm0) →
  ∀ w' : World,
    get_train_loader node_id (dm, w') = (Raise (KeyError node_id), (dm, w')) ∧
    get_test_loader node_id (dm, w') = (Raise (KeyError node_id), (dm, w')).
Proof.
  intros Hrun Hout w'.
  destruct (setup_dicts _ _ _ _ Hrun)
    as (tr & nd & tl & _ & Hnd & Hnd' & Htl & Htl' & _).
  assert (node_id ∉ py_range (num_nodes dm0)) as Hnot
    by (by rewrite elem_of_py_range).
  unfold get_train_loader, get_test_loader, mbind, M_bind, attr, lift. simpl.
  rewrite Hnd, Htl. simpl. unfold dict_getitem.
  by rewrite (proj2 (Hnd' node_id) Hnot), (proj2 (Htl' node_id) Hnot).
Qed.

Lemma unknown_node_rejected_witness :
  let FX := Sample.fenics 4 false in
  let s0 := Sample.built 2 0.5%float 32 0 in
  let s := (setup s0).2 in
  get_train_loader 2 (s.1, s.2) = (Raise (KeyError 2), (s.1, s.2)) ∧
  get_test_loader 2 (s.1, s.2) = (Raise (KeyError 2), (s.1, s.2)).
Proof.
  intros FX s0 s.
  apply (unknown_node_rejected s0.1 s.1 s0.2 s.2 2).
  - apply (run_ok setup s0). vm_compute. reflexivity.
  - vm_compute. intros [_ H]. discriminate.
Defined.

(** C4, as stated, fails: [setup] has no handler.  When the plot of the data
    distribution fails, [setup] raises that failure, and neither dictionary
    has been derived. *)
Lemma setup_aborts_when_plot_fails :
  let FX := Sample.fenics 4 true in
  let r := setup (Sample.built 2 0.5%float 32 0) in
  r.1 = Raise (Failure "visualize_data_distribution") ∧
  node_datasets r.2.1 = None ∧
  test_loaders_per_node r.2.1 = None.
Proof. intros FX r. split_and!; reflexivity. Qed.

(** C4, amended.  A failure of a logging or plotting collaborator is not
    recovered: [setup] stops at the failing call and raises the same error.
    For [print_class_distribution], [visualize_data_distribution] and
    [visualize_and_save_topology] the instance is left as it was at that
    call, so the two dictionaries have not been assigned.  A failure of the
    final [logger.info] is raised too, after everything has been derived:
    the instance holds both dictionaries and the test loaders exist, exactly
    as after a [setup] that returned. *)
Theorem setup_propagates_collaborator_failure `{RT : Runtime} `{FX : !Fenics}
    (dm : DataModule) (w : World) (tr : list Dataset) (te : Dataset)
    (lb : Labels) (e1 : Env) :
  load_datasets_dirichlet (num_nodes dm) (alpha dm) (env w)
    = (Ok (tr, te, lb), e1) →
  let dm1 := set_loaded tr te lb dm in
  let print := print_class_distribution (Some tr) (logger dm) in
  let plot :=
    visualize_data_distribution (Some tr) (num_nodes dm) class_names
      (output_dir dm) (logger dm) in
  let build := build_topology (num_nodes dm) (topology dm) (topology_file dm) in
  let save gr :=
    visualize_and_save_topology (Some gr) (topology dm) (output_dir dm) in
  (∀ ex e2, print e1 = (Raise ex, e2) →
     setup (dm, w) = (Raise ex, (dm1, mkWorld e2 (heap w)))) ∧
  (∀ e2 ex e3, print e1 = (Ok tt, e2) → plot e2 = (Raise ex, e3) →
     setup (dm, w) = (Raise ex, (dm1, mkWorld e3 (heap w)))) ∧
  (∀ e2 e3 gr e4 ex e5,
     print e1 = (Ok tt, e2) → plot e2 = (Ok tt, e3) →
     build e3 = (Ok gr, e4) → save gr e4 = (Raise ex, e5) →
     setup (dm, w) =
       (Raise ex,
        (set_G gr (set_nodes (create_nodes (num_nodes dm)) dm1),
         mkWorld e5 (heap w)))) ∧
  (∀ gr e5 ex x6,
     setup_derives (num_nodes dm) (alpha dm) (topology dm) (topology_file dm)
       (output_dir dm) (logger dm) (batch_size dm) (env w) tr te lb gr e5 →
     logger_info (logger dm) "Data module setup complete" (ext e5)
       = (Raise ex, x6) →
     ∃ nd tl,
       node_datasets_of (num_nodes dm) tr nd ∧
       loaders_from (num_nodes dm) (heap w) tl ∧
       setup (dm, w) =
         (Raise ex,
          ready (num_nodes dm) (alpha dm) (topology dm) (topology_file dm)
            (output_dir dm) (logger dm) (batch_size dm) (random_seed dm)
            tr te lb gr nd tl e5 x6 (heap w))).
Proof.
  intros Hload dm1 print plot build save.
  split_and!.
  - intros ex e2 Hprint. unfold setup, mbind, M_bind, attr, assign, call. simpl. rewrite Hload. simpl.
    destruct dm; simpl in *. subst print. simpl in *. by rewrite Hprint.
  - intros e2 ex e3 Hprint Hplot. unfold setup, mbind, M_bind, attr, assign, call. simpl. rewrite Hload. simpl.
    destruct dm; simpl in *. subst print plot. simpl in *.
    rewrite Hprint. simpl. by rewrite Hplot.
  - intros e2 e3 gr e4 ex e5 Hprint Hplot Hbuild Hsave. unfold setup, mbind, M_bind, attr, assign, call. simpl. rewrite Hload. simpl.
    destruct dm; simpl in *. subst print plot build save. simpl in *.
    rewrite Hprint. simpl. rewrite Hplot. simpl. rewrite Hbuild. simpl.
    by rewrite Hsave.
  - intros gr e5 ex x6 Hderives Hlog.
    destruct dm as [n a t tf od lg bs sd f1 f2 f3 f4 f5 f6 f7], w as [e0 h].
    simpl in *.
    destruct (setup_run n a t tf od lg bs sd e0 tr te lb gr e5
                f1 f2 f3 f4 f5 f6 f7 h Hderives) as (nd & tl & Hnd & Htl & ->).
    exists nd, tl. split_and!; [done..|]. by rewrite Hlog.
Qed.

Lemma setup_propagates_collaborator_failure_witness :
  let RT := Sample.runtime in
  let FX := Sample.fenics 4 true in
  let FY := Sample.fenics 4 false in
  let s0 := Sample.built (FX := FX) 2 0.5%float 32 0 in
  let train := Source "train" 8 in
  let tr := [Subset train [0; 2; 4; 6]; Subset train [1; 3; 5; 7]] in
  let te := Source "test" 4 in
  let lb : list Z := [0; 1; 2; 3; 4; 5; 6; 7] in
  let gr : list (Z * Z) := [(0, 1); (1, 0)] in
  let e5 :=
    Sample.env_of 0 1
      ["class distribution"; "data_distribution.png"; "topology.png"] in
  let closed : @DataModule RT FY :=
    mkDataModule 2 0.5%float "ring" None "results" "closed" 32 0
      None None None None None None None in
  (@load_datasets_dirichlet RT FX 2 0.5%float (env s0.2)
     = (Ok (tr, te, lb), Sample.env_of 0 1 []) ∧
   @setup RT FX s0 =
     (Raise (Failure "visualize_data_distribution"),
      (@set_loaded RT FX tr te lb s0.1,
       mkWorld (Sample.env_of 0 1 ["class distribution"]) (heap s0.2)))) ∧
  ∃ nd tl,
    node_datasets_of 2 tr nd ∧ loaders_from 2 [] tl ∧
    @setup RT FY (closed, Sample.world0) =
      (Raise (Failure "logger.info"),
       @ready RT FY 2 0.5%float "ring" None "results" "closed" 32 0
         tr te lb gr nd tl e5 (ext e5) []).
Proof.
  intros RT FX FY s0 train tr te lb gr e5 closed. split.
  - split; [reflexivity|].
    destruct (@setup_propagates_collaborator_failure RT FX s0.1 s0.2 tr te lb
                (Sample.env_of 0 1 []) eq_refl) as (_ & Hplot & _).
    apply (Hplot (Sample.env_of 0 1 ["class distribution"])); reflexivity.
  - destruct (@setup_propagates_collaborator_failure RT FY closed Sample.world0
                tr te lb (Sample.env_of 0 1 []) eq_refl) as (_ & _ & _ & Hlog).
    apply (Hlog gr e5 (Failure "logger.info") (ext e5)); [|reflexivity].
    exists (Sample.env_of 0 1 []), (Sample.env_of 0 1 ["class distribution"]),
      (Sample.env_of 0 1 ["class distribution"; "data_distribution.png"]),
      (Sample.env_of 0 1 ["class distribution"; "data_distribution.png"]).
    split_and!; try reflexivity.
    + intros k Hk%elem_of_py_range. change (0 ≤ k < 2) in Hk.
      assert (k = 0 ∨ k = 1) as [->| ->] by lia; eexists; reflexivity.
    + discriminate.
    + repeat constructor.
Defined.

(** C7, as stated, fails: the generators are seeded by the constructor and
    are global.  Two instances with the same configuration, both constructed
    before either runs [setup], end with different test splits: the second
    [setup] shuffles with the generator as the first one left it. *)
Lemma instances_constructed_together_differ :
  let FX := Sample.fenics 4 false in
  let a := Sample.built_in 2 0.5%float 32 0 Sample.world0 in
  let b := Sample.built_in 2 0.5%float 32 0 a.2 in
  let ra := setup (a.1, b.2) in
  let rb := setup (b.1, ra.2.2) in
  a.1 = b.1 ∧ ra.1 = Ok tt ∧ rb.1 = Ok tt ∧
  test_split ra.2.1 rb.2.2 0 = Some [2; 1] ∧
  test_split rb.2.1 rb.2.2 0 = Some [1; 2].
Proof. intros FX a b ra rb. split_and!; reflexivity. Qed.

(** C7, amended.  Two instances constructed with the same arguments, each
    run through [setup] in the state its own constructor left, have the
    same Node Assignment Map and the same Test Split Map, and when one
    [setup] returns so does the other, whatever the states of the process
    the two constructors started from.  The collaborators are taken to read
    the process through the generators: [torch.manual_seed] and
    [np.random.seed] bring any two states to states related by [same], and
    the collaborators return the same values in environments so related. *)
Theorem setup_deterministic_after_construction
    `{RT : Runtime} `{FX : !Fenics} (same : Ext → Ext → Prop)
    (n : Z) (a : float) (t : string) (tf : option string) (od : string)
    (lgo : option Logger) (bs sd : Z)
    (wA wB wA0 wB0 wA' : World) (dmA dmB dmA' : DataModule) :
  seeding_fixes same sd →
  collaborators_read_through same →
  __init__ n a t tf od lgo bs sd wA = (Ok dmA, wA0) →
  __init__ n a t tf od lgo bs sd wB = (Ok dmB, wB0) →
  setup (dmA, wA0) = (Ok tt, (dmA', wA')) →
  ∃ dmB' wB',
    setup (dmB, wB0) = (Ok tt, (dmB', wB')) ∧
    node_datasets dmB' = node_datasets dmA' ∧
    (∀ k, node_assignment dmB' k = node_assignment dmA' k) ∧
    (∀ k, test_split dmB' wB' k = test_split dmA' wA' k).
Proof.
  unfold __init__. intros Hseed Hread HA HB Hrun.
  destruct (torch_manual_seed sd (ext (env wA))) as [[[]|?] xa] eqn:HtA; [|done].
  destruct (np_random_seed sd xa) as [[[]|?] xa'] eqn:HnA; [|done].
  destruct (torch_manual_seed sd (ext (env wB))) as [[[]|?] xb] eqn:HtB; [|done].
  destruct (np_random_seed sd xb) as [[[]|?] xb'] eqn:HnB; [|done].
  simplify_eq.
  pose proof (Hseed _ _ _ _ _ _ HtA HnA HtB HnB) as Hsame.
  set (dm := mkDataModule n a t tf od (default getLogger lgo) bs sd
               None None None None None None None) in *.
  destruct (setup_alike same dm
              (mkWorld (mkEnv (random_seed_state sd) xa') (heap wA)) dm
              (mkWorld (mkEnv (random_seed_state sd) xb') (heap wB)) dmA' wA'
              Hread ltac:(by repeat split) ltac:(by split) Hrun)
    as (dmB' & wB' & HrunB & Hnd & Hsplit).
  exists dmB', wB'. split_and!; try done.
  intros k. unfold node_assignment. by rewrite Hnd.
Qed.

Lemma setup_deterministic_after_construction_witness :
  let FX := Sample.fenics 4 false in
  let wA := Sample.world0 in
  let wB :=
    mkWorld (Sample.env_of 17 5 ["an earlier run"])
      [mkDataLoader (Source "x" 1) 1 true] in
  let a := Sample.built_in 2 0.5%float 32 0 wA in
  let b := Sample.built_in 2 0.5%float 32 0 wB in
  let ra := (setup a).2 in
  ∃ dmB' wB',
    setup b = (Ok tt, (dmB', wB')) ∧
    node_datasets dmB' = node_datasets ra.1 ∧
    (∀ k, node_assignment dmB' k = node_assignment ra.1 k) ∧
    (∀ k, test_split dmB' wB' k = test_split ra.1 ra.2 k).
Proof.
  intros FX wA wB a b ra.
  apply (@setup_deterministic_after_construction Sample.runtime FX
           Sample.same_generators 2 0.5%float "ring" None "results" None 32 0 wA wB a.2 b.2 ra.2
           a.1 b.1 ra.1).
  - apply sample_seeding_fixes.
  - apply sample_collaborators_read_through.
  - reflexivity.
  - reflexivity.
  - apply (run_ok setup a). vm_compute. reflexivity.
Defined.

(** C8, as stated, fails: a second [setup] is not rejected and does not
    reproduce the first one.  It shuffles with the generator as the first
    call left it, and the test split of node 0 changes. *)
Lemma second_setup_changes_test_split :
  let FX := Sample.fenics 4 false in
  let first := setup (Sample.built 2 0.5%float 32 0) in
  let second := setup first.2 in
  first.1 = Ok tt ∧ second.1 = Ok tt ∧
  test_split first.2.1 first.2.2 0 = Some [2; 1] ∧
  test_split second.2.1 second.2.2 0 = Some [1; 2].
Proof. intros FX first second. split_and!; reflexivity. Qed.

(** C8, amended.  A second [setup] on a Ready instance is not rejected.  It
    derives everything again from the configuration and the environment of
    that moment, exactly as a first [setup] of the instance would in that
    environment: the attributes derived by the first call and the loaders
    allocated so far play no role.  Whenever it starts in the environment
    the first call started from, it returns and reproduces the maps of the
    first call; [setup] itself does not restore that environment. *)
Theorem setup_again_rederives_from_environment `{RT : Runtime} `{FX : !Fenics}
    (dm0 dm1 : DataModule) (w0 w1 : World) :
  setup (dm0, w0) = (Ok tt, (dm1, w1)) →
  (∀ w' w'' dmF wF,
     env w'' = env w' →
     setup (dm0, w') = (Ok tt, (dmF, wF)) →
     ∃ dm2 w2,
       setup (dm1, w'') = (Ok tt, (dm2, w2)) ∧
       node_datasets dm2 = node_datasets dmF ∧
       ∀ k, test_split dm2 w2 k = test_split dmF wF k) ∧
  (∀ w' w'' dm2 w2,
     env w' = env w'' →
     setup (dm1, w'') = (Ok tt, (dm2, w2)) →
     ∃ dmF wF,
       setup (dm0, w') = (Ok tt, (dmF, wF)) ∧
       node_datasets dmF = node_datasets dm2 ∧
       ∀ k, test_split dmF wF k = test_split dm2 w2 k) ∧
  (∀ w',
     env w' = env w0 →
     ∃ dm2 w2,
       setup (dm1, w') = (Ok tt, (dm2, w2)) ∧
       node_datasets dm2 = node_datasets dm1 ∧
       ∀ k, test_split dm2 w2 k = test_split dm1 w1 k).
Proof.
  intros Hrun. pose proof (setup_keeps_config _ _ _ _ Hrun) as Hcfg.
  assert (same_config dm1 dm0) as Hcfg'.
  { destruct Hcfg as (?&?&?&?&?&?&?&?). by repeat split. }
  split_and!.
  - intros w' w'' dmF wF He HF.
    destruct (setup_determined _ _ dm1 w'' _ _ Hcfg (eq_sym He) HF)
      as (dm2 & w2 & H2 & _ & Hnd & _ & Hsplit).
    by exists dm2, w2.
  - intros w' w'' dm2 w2 He H2.
    destruct (setup_determined _ _ dm0 w' _ _ Hcfg' (eq_sym He) H2)
      as (dmF & wF & HF & _ & Hnd & _ & Hsplit).
    by exists dmF, wF.
  - intros w' He.
    destruct (setup_determined _ _ dm1 w' _ _ Hcfg (eq_sym He) Hrun)
      as (dm2 & w2 & H2 & _ & Hnd & _ & Hsplit).
    by exists dm2, w2.
Qed.

Lemma setup_again_rederives_from_environment_witness :
  let FX := Sample.fenics 4 false in
  let s0 := Sample.built 2 0.5%float 32 0 in
  let s1 := (setup (s0.1, s0.2)).2 in
  let s2 := (setup (s1.1, s1.2)).2 in
  let restored := mkWorld (env s0.2) (heap s1.2) in
  (∃ dmF wF,
     setup (s0.1, s1.2) = (Ok tt, (dmF, wF)) ∧
     node_datasets dmF = node_datasets s2.1 ∧
     ∀ k, test_split dmF wF k = test_split s2.1 s2.2 k) ∧
  (∃ dm2 w2,
     setup (s1.1, restored) = (Ok tt, (dm2, w2)) ∧
     node_datasets dm2 = node_datasets s1.1 ∧
     ∀ k, test_split dm2 w2 k = test_split s1.1 s1.2 k).
Proof.
  intros FX s0 s1 s2 restored.
  assert (setup (s0.1, s0.2) = (Ok tt, (s1.1, s1.2))) as H1
    by (apply (run_ok setup (s0.1, s0.2)); vm_compute; reflexivity).
  assert (setup (s1.1, s1.2) = (Ok tt, (s2.1, s2.2))) as H2
    by (apply (run_ok setup (s1.1, s1.2)); vm_compute; reflexivity).
  destruct (setup_again_rederives_from_environment s0.1 s1.1 s0.2 s1.2 H1)
    as (_ & Hfresh & Hsame).
  split.
  - exact (Hfresh s1.2 s1.2 s2.1 s2.2 eq_refl H2).
  - exact (Hsame restored eq_refl).
Defined.

(** The test loaders created by [setup] stay where they are when the heap
    grows. *)
Lemma test_split_extend `{RT : Runtime} `{FX : !Fenics}
    (dm0 dm : DataModule) (w0 w w' : World) (k : Z) :
  setup (dm0, w0) = (Ok tt, (dm, w)) →
  heap w `prefix_of` heap w' →
  test_split dm w' k = test_split dm w k.
Proof.
  intros Hrun Hpre.
  destruct (setup_dicts _ _ _ _ Hrun)
    as (tr & nd & tl & _ & _ & _ & Htl & Htl' & _ & Hlen).
  unfold test_split. rewrite Htl. simpl.
  destruct (decide (k ∈ py_range (num_nodes dm0))) as [Hk|Hk].
  - rewrite (proj1 (Htl' k) Hk). simpl.
    apply elem_of_py_range in Hk.
    by rewrite <-(prefix_lookup_lt (heap w) (heap w')) by (done || lia).
  - by rewrite (proj2 (Htl' k) Hk).
Qed.

(** C9.  After [setup], in every later state of the process, each accessor
    leaves the instance as it is (configuration, node-to-dataset map, test
    loader map), leaves the environment as it is, only ever adds to the
    loader objects, and leaves the Test Split Map as [setup] made it. *)
Theorem accessors_leave_state_unchanged `{RT : Runtime} `{FX : !Fenics}
    (dm0 dm : DataModule) (w0 w w' : World) (node_id : Z) :
  setup (dm0, w0) = (Ok tt, (dm, w)) →
  heap w `prefix_of` heap w' →
  let kept (s' : State) :=
    s'.1 = dm ∧ env s'.2 = env w' ∧ heap w' `prefix_of` heap s'.2 ∧
    ∀ k, test_split s'.1 s'.2 k = test_split dm w k in
  kept (get_train_loader node_id (dm, w')).2 ∧
  kept (get_test_loader node_id (dm, w')).2 ∧
  kept (get_data_sizes (dm, w')).2 ∧
  kept (calculate_selection_probabilities (dm, w')).2.
Proof.
  intros Hrun Hpre kept.
  assert (kept (dm, w')) as Hsame.
  { split_and!; try done. intros k. by eapply test_split_extend. }
  assert (∀ ld, kept (dm, mkWorld (env w') (heap w' ++ [ld]))) as Hgrown.
  { intros ld. split_and!; try done; simpl.
    - by apply prefix_app_r.
    - intros k. eapply test_split_extend; [done|]. simpl.
      by apply prefix_app_r. }
  assert ((get_train_loader node_id (dm, w')).2 = (dm, w') ∨
          ∃ ld, (get_train_loader node_id (dm, w')).2 =
                  (dm, mkWorld (env w') (heap w' ++ [ld]))) as Htrain.
  { unfold get_train_loader, mbind, M_bind, attr, lift, new_DataLoader. simpl.
    destruct (dict_subscript (node_datasets dm) node_id) as [d|]; [|by left].
    destruct (DataLoader_check d (batch_size dm) true); [by left|].
    right. by eexists. }
  assert ((get_test_loader node_id (dm, w')).2 = (dm, w')) as Htest.
  { unfold get_test_loader, mbind, M_bind, attr, lift. simpl.
    by destruct (dict_subscript (test_loaders_per_node dm) node_id). }
  assert ((get_data_sizes (dm, w')).2 = (dm, w')) as Hsizes.
  { unfold get_data_sizes, mbind, M_bind, attr, lift. simpl.
    by destruct (node_datasets dm). }
  assert ((calculate_selection_probabilities (dm, w')).2 = (dm, w')) as Hprob.
  { unfold calculate_selection_probabilities, mbind, M_bind, attr, lift. simpl.
    by destruct (utils_calculate_selection_probabilities (node_datasets dm)). }
  rewrite Htest, Hsizes, Hprob. split_and!; try done.
  destruct Htrain as [->|[ld ->]]; [done|apply Hgrown].
Qed.

Lemma accessors_leave_state_unchanged_witness :
  let FX := Sample.fenics 4 false in
  let s0 := Sample.built 2 0.5%float 32 0 in
  let s := (setup s0).2 in
  let kept (s' : State) :=
    s'.1 = s.1 ∧ env s'.2 = env s.2 ∧ heap s.2 `prefix_of` heap s'.2 ∧
    ∀ k, test_split s'.1 s'.2 k = test_split s.1 s.2 k in
  kept (get_train_loader 1 (s.1, s.2)).2 ∧
  kept (get_test_loader 1 (s.1, s.2)).2 ∧
  kept (get_data_sizes (s.1, s.2)).2 ∧
  kept (calculate_selection_probabilities (s.1, s.2)).2.
Proof.
  intros FX s0 s.
  apply (accessors_leave_state_unchanged s0.1 s.1 s0.2 s.2 s.2 1).
  - apply (run_ok setup s0). vm_compute. reflexivity.
  - reflexivity.
Defined.

(** C10, as stated, fails: not every call of [get_train_loader] for a node
    of the registry constructs a loader.  With three nodes and two training
    examples node 2 has an empty training dataset; [setup] returns, and
    [get_train_loader 2] raises the error of the [DataLoader] constructor
    (a shuffling loader over no example), at every call, and allocates
    nothing. *)
Lemma train_loader_of_empty_dataset_raises :
  let FX := Sample.fenics 1 false in
  let s := setup (Sample.built 3 0.5%float 32 0) in
  let r := get_train_loader 2 s.2 in
  s.1 = Ok tt ∧
  node_assignment s.2.1 2 = Some (Subset (Source "train" 2) []) ∧
  r.1 = Raise (ValueError "num_samples should be a positive integer value") ∧
  heap r.2.2 = heap s.2.2 ∧
  (get_train_loader 2 r.2).1 = r.1.
Proof. intros FX s r. split_and!; vm_compute; reflexivity. Qed.

(** C10, amended.  After [setup], for a node of the registry,
    [get_test_loader] returns, in every later state and without any effect,
    one and the same loader object, allocated during [setup];
    [get_train_loader] calls the [DataLoader] constructor on the node's
    dataset at every call.  When the constructor rejects its arguments the
    call raises that error and allocates nothing; when it accepts them,
    every call returns a newly allocated loader, so two calls in a row
    return different objects, each absent from the heap before its call. *)
Theorem test_loader_cached_train_loader_fresh `{RT : Runtime} `{FX : !Fenics}
    (dm0 dm : DataModule) (w0 w : World) (node_id : Z) :
  setup (dm0, w0) = (Ok tt, (dm, w)) →
  0 ≤ node_id < num_nodes dm0 →
  (∃ l : loc,
     (length (heap w0) ≤ l < length (heap w))%nat ∧
     ∀ w' : World, get_test_loader node_id (dm, w') = (Ok l, (dm, w'))) ∧
  (∃ d : Dataset,
     node_assignment dm node_id = Some d ∧
     (∀ w' : World,
        get_train_loader node_id (dm, w') =
          match DataLoader_check d (batch_size dm) true with
          | Some ex => (Raise ex, (dm, w'))
          | None =>
              (Ok (length (heap w')),
               (dm, mkWorld (env w')
                      (heap w' ++ [mkDataLoader d (batch_size dm) true])))
          end) ∧
     (DataLoader_check d (batch_size dm) true = None →
      ∀ w1 : World, ∃ (l1 l2 : loc) (s1 s2 : State),
        get_train_loader node_id (dm, w1) = (Ok l1, s1) ∧
        get_train_loader node_id s1 = (Ok l2, s2) ∧
        l1 ≠ l2)) ∧
  (∀ (w1 : World) (l1 l2 : loc) (s1 s2 : State),
     get_train_loader node_id (dm, w1) = (Ok l1, s1) →
     get_train_loader node_id s1 = (Ok l2, s2) →
     l1 ≠ l2 ∧ heap w1 !! l1 = None ∧ heap s1.2 !! l2 = None ∧
     is_Some (heap s2.2 !! l1) ∧ is_Some (heap s2.2 !! l2)).
Proof.
  intros Hrun Hin.
  destruct (setup_dicts _ _ _ _ Hrun)
    as (tr & nd & tl & _ & Hnd & Hnd' & Htl & Htl' & _ & Hlen).
  assert (node_id ∈ py_range (num_nodes dm0)) as Hk
    by (by apply elem_of_py_range).
  destruct (proj1 (Hnd' node_id) Hk) as (d & _ & Hd).
  pose proof (proj1 (Htl' node_id) Hk) as Hl.
  assert (∀ w' : World,
            get_train_loader node_id (dm, w') =
              match DataLoader_check d (batch_size dm) true with
              | Some ex => (Raise ex, (dm, w'))
              | None =>
                  (Ok (length (heap w')),
                   (dm, mkWorld (env w')
                          (heap w' ++ [mkDataLoader d (batch_size dm) true])))
              end) as Htrain.
  { intros w'.
    unfold get_train_loader, mbind, M_bind, attr, lift, new_DataLoader. simpl.
    rewrite Hnd. simpl. unfold dict_getitem. rewrite Hd. simpl.
    by destruct (DataLoader_check _ _ _). }
  split_and!.
  - exists (length (heap w0) + Z.to_nat node_id)%nat. split; [lia|].
    intros w'. unfold get_test_loader, mbind, M_bind, attr, lift. simpl.
    rewrite Htl. simpl. unfold dict_getitem. by rewrite Hl.
  - exists d. split_and!; [|done|].
    + unfold node_assignment. by rewrite Hnd.
    + intros Hck w1.
      exists (length (heap w1)), (S (length (heap w1))),
        (dm, mkWorld (env w1)
               (heap w1 ++ [mkDataLoader d (batch_size dm) true])),
        (dm, mkWorld (env w1)
               ((heap w1 ++ [mkDataLoader d (batch_size dm) true]) ++
                [mkDataLoader d (batch_size dm) true])).
      rewrite !Htrain, Hck. simpl. rewrite length_app. simpl.
      split_and!; [done| |lia]. do 2 f_equal. lia.
  - intros w1 l1 l2 s1 s2. rewrite Htrain.
    destruct (DataLoader_check _ _ _) eqn:Hck; [done|].
    intros [= <- <-]. rewrite Htrain. intros [= <- <-]. simpl.
    rewrite length_app. simpl. split_and!.
    + lia.
    + by apply lookup_ge_None_2.
    + apply lookup_ge_None_2. rewrite length_app. simpl. lia.
    + apply lookup_lt_is_Some_2. rewrite !length_app. simpl. lia.
    + apply lookup_lt_is_Some_2. rewrite !length_app. simpl. lia.
Qed.

Lemma test_loader_cached_train_loader_fresh_witness :
  let RT := Sample.runtime in
  let FX := Sample.fenics 4 false in
  let s0 := Sample.built 2 0.5%float 32 0 in
  let s := (setup s0).2 in
  (∃ l : loc,
     (length (heap s0.2) ≤ l < length (heap s.2))%nat ∧
     ∀ w' : @World RT, get_test_loader 1 (s.1, w') = (Ok l, (s.1, w'))) ∧
  (∃ d : Dataset,
     node_assignment s.1 1 = Some d ∧
     (∀ w' : @World RT,
        get_train_loader 1 (s.1, w') =
          match @DataLoader_check RT d (batch_size s.1) true with
          | Some ex => (Raise ex, (s.1, w'))
          | None =>
              (Ok (length (heap w')),
               (s.1, mkWorld (env w')
                       (heap w' ++ [mkDataLoader d (batch_size s.1) true])))
          end) ∧
     (@DataLoader_check RT d (batch_size s.1) true = None →
      ∀ w1 : @World RT, ∃ (l1 l2 : loc) (s1 s2 : @State RT FX),
        get_train_loader 1 (s.1, w1) = (Ok l1, s1) ∧
        get_train_loader 1 s1 = (Ok l2, s2) ∧
        l1 ≠ l2)) ∧
  (∀ (w1 : @World RT) (l1 l2 : loc) (s1 s2 : @State RT FX),
     get_train_loader 1 (s.1, w1) = (Ok l1, s1) →
     get_train_loader 1 s1 = (Ok l2, s2) →
     l1 ≠ l2 ∧ heap w1 !! l1 = None ∧ heap s1.2 !! l2 = None ∧
     is_Some (heap s2.2 !! l1) ∧ is_Some (heap s2.2 !! l2)).
Proof.
  intros RT FX s0 s.
  apply (test_loader_cached_train_loader_fresh s0.1 s.1 s0.2 s.2 1).
  - apply (run_ok setup s0). vm_compute. reflexivity.
  - vm_compute. split; [discriminate|reflexivity].
Defined.

(** * Further properties of the data module *)

(** X1.  [create_nodes] returns the identifiers [0 .. num_nodes-1], each
    once, in ascending order: position [i] holds [i]; there are
    [max num_nodes 0] of them, none for a count that is zero or negative. *)
Theorem create_nodes_registry (num_nodes : Z) :
  Z.of_nat (length (create_nodes num_nodes)) = Z.max num_nodes 0 ∧
  NoDup (create_nodes num_nodes) ∧
  (∀ k, k ∈ create_nodes num_nodes ↔ 0 ≤ k < num_nodes) ∧
  (∀ i k, create_nodes num_nodes !! i = Some k ↔
          k = Z.of_nat i ∧ Z.of_nat i < num_nodes) ∧
  (∀ k, 0 ≤ k < num_nodes → py_getitem (create_nodes num_nodes) k = Ok k) ∧
  (num_nodes ≤ 0 → create_nodes num_nodes = []).
Proof.
  unfold create_nodes. split_and!.
  - unfold py_range. rewrite length_seqZ. lia.
  - apply NoDup_seqZ.
  - apply elem_of_py_range.
  - intros i k. unfold py_range. rewrite lookup_seqZ. lia.
  - intros k Hk. by apply py_getitem_range, elem_of_py_range.
  - apply seqZ_nil.
Qed.

(** The comprehension [{node: tr[node] for node in range(n)}], entry by
    entry; it exists only if [tr] has an entry for every node. *)
Lemma node_datasets_of_lookup (n : Z) (tr : list Dataset) (nd : gmap Z Dataset) :
  node_datasets_of n tr nd →
  n ≤ Z.max (Z.of_nat (length tr)) 0 ∧
  ∀ k, nd !! k = if decide (0 ≤ k < n) then tr !! Z.to_nat k else None.
Proof.
  intros Hnd.
  assert (∀ k, 0 ≤ k < n →
            nd !! k = tr !! Z.to_nat k ∧ is_Some (tr !! Z.to_nat k)) as Hin.
  { intros k Hk.
    destruct (proj1 (Hnd k) ltac:(by apply elem_of_py_range)) as (d & Hd & ->).
    unfold py_getitem in Hd. cbv zeta in Hd. repeat case_decide; try lia.
    destruct (tr !! Z.to_nat k); by simplify_eq. }
  split.
  - destruct (decide (n ≤ 0)) as [|Hpos]; [lia|].
    destruct (Hin (n - 1) ltac:(lia)) as [_ Hsome].
    apply lookup_lt_is_Some_1 in Hsome. lia.
  - intros k. case_decide as Hk.
    + by destruct (Hin k Hk).
    + apply (proj2 (Hnd k)). by rewrite elem_of_py_range.
Qed.

(** X2.  After [setup], the nodes are those of [create_nodes] and the
    dictionary of node datasets has exactly these keys: node [k] holds the
    [k]-th training dataset returned by the loader, and an identifier
    outside the registry has no entry. *)
Theorem setup_assigns_training_datasets `{RT : Runtime} `{FX : !Fenics}
    (dm0 dm : DataModule) (w0 w : World) :
  setup (dm0, w0) = (Ok tt, (dm, w)) →
  nodes dm = Some (create_nodes (num_nodes dm0)) ∧
  ∃ tr,
    train_datasets dm = Some tr ∧
    num_nodes dm0 ≤ Z.of_nat (length tr) ∧
    ∀ k, node_assignment dm k =
           if decide (0 ≤ k < num_nodes dm0) then tr !! Z.to_nat k else None.
Proof.
  destruct dm0 as [n a t tf od lg bs sd f1 f2 f3 f4 f5 f6 f7], w0 as [e0 h].
  intros Hrun. apply setup_ready in Hrun
    as (tr&te&lb&gr&e5&x6&nd&tl&_&_&Hnd&_&Hs).
  unfold ready in Hs. simplify_eq. simpl. split; [done|].
  destruct (node_datasets_of_lookup n tr nd Hnd) as [Hlen Hlookup].
  exists tr. split_and!; [done|lia|].
  intros k. unfold node_assignment. simpl. apply Hlookup.
Qed.

Lemma setup_assigns_training_datasets_witness :
  let FX := Sample.fenics 4 false in
  let s0 := Sample.built 2 0.5%float 32 0 in
  let s := (setup s0).2 in
  nodes s.1 = Some (create_nodes (num_nodes s0.1)) ∧
  ∃ tr,
    train_datasets s.1 = Some tr ∧
    num_nodes s0.1 ≤ Z.of_nat (length tr) ∧
    ∀ k, node_assignment s.1 k =
           if decide (0 ≤ k < num_nodes s0.1) then tr !! Z.to_nat k else None.
Proof.
  intros FX s0 s.
  apply (setup_assigns_training_datasets s0.1 s.1 s0.2 s.2).
  apply (run_ok setup s0). vm_compute. reflexivity.
Defined.

(** X3.  With zero nodes, once the collaborators have returned, [setup]
    assigns an empty dictionary of node datasets, shuffles the test indices
    and raises [ZeroDivisionError] at the division by the number of nodes;
    the dictionary of test loaders is not touched.  On the instance left
    behind, [get_data_sizes] returns the empty dictionary instead of
    failing. *)
Theorem setup_with_zero_nodes `{RT : Runtime} `{FX : !Fenics}
    (dm : DataModule) (w : World) (tr : list Dataset) (te : Dataset)
    (lb : Labels) (gr : Graph) (e5 : Env) :
  num_nodes dm = 0 →
  collaborators_return dm w tr te lb gr e5 →
  let dm' := set_node_datasets ∅ (loaded dm tr te lb gr) in
  let w' := mkWorld (mkEnv (after_shuffle te e5) (ext e5)) (heap w) in
  setup (dm, w) = (Raise ZeroDivisionError, (dm', w')) ∧
  test_loaders_per_node dm' = test_loaders_per_node dm ∧
  get_data_sizes (dm', w') = (Ok ∅, (dm', w')).
Proof.
  destruct dm as [n a t tf od lg bs sd f1 f2 f3 f4 f5 f6 f7], w as [e0 h].
  simpl. intros -> Hret. split_and!; [|done|].
  - rewrite (setup_after_collaborators _ _ _ _ _ _ _ _ _ _ _ _ _ _ _ _ _
               tr te lb gr e5 Hret).
    change (py_range 0) with (@nil Z). cbn [collect_node_datasets].
    unfold mret, M_ret. cbn [fst snd]. unfold set_node_datasets. cbn.
    by rewrite create_test_loaders_run.
  - unfold get_data_sizes, mbind, M_bind, attr, mret, M_ret. simpl.
    by rewrite fmap_empty.
Qed.

Lemma setup_with_zero_nodes_witness :
  let FX := Sample.fenics 4 false in
  let s0 := Sample.built 0 0.5%float 32 0 in
  let te := Source "test" 4 in
  let lb : @Labels _ FX := [0; 1; 2; 3; 4; 5; 6; 7] in
  let gr : @Graph _ FX := [] in
  let e5 :=
    Sample.env_of 0 1
      ["class distribution"; "data_distribution.png"; "topology.png"] in
  let dm' := set_node_datasets ∅ (loaded s0.1 [] te lb gr) in
  let w' := mkWorld (mkEnv (after_shuffle te e5) (ext e5)) (heap s0.2) in
  setup (s0.1, s0.2) = (Raise ZeroDivisionError, (dm', w')) ∧
  test_loaders_per_node dm' = test_loaders_per_node s0.1 ∧
  get_data_sizes (dm', w') = (Ok ∅, (dm', w')).
Proof.
  intros FX s0 te lb gr e5.
  apply (setup_with_zero_nodes s0.1 s0.2 [] te lb gr e5).
  - reflexivity.
  - exists (Sample.env_of 0 1 []), (Sample.env_of 0 1 ["class distribution"]),
      (Sample.env_of 0 1 ["class distribution"; "data_distribution.png"]),
      (Sample.env_of 0 1 ["class distribution"; "data_distribution.png"]).
    split_and!; reflexivity.
Defined.

(** X4.  [setup] never returns normally on an instance with zero nodes,
    whatever the collaborators do. *)
Theorem setup_needs_a_node `{RT : Runtime} `{FX : !Fenics}
    (dm : DataModule) (w : World) :
  num_nodes dm = 0 → (setup (dm, w)).1 ≠ Ok tt.
Proof.
  intros Hn Hok. destruct (setup (dm, w)) as [r [dm' w']] eqn:Hrun.
  simpl in Hok. subst r.
  by destruct (setup_test_split _ _ _ _ Hrun) as [Hne _].
Qed.

Lemma setup_needs_a_node_witness :
  let FX := Sample.fenics 4 false in
  let s0 := Sample.built 0 0.5%float 32 0 in
  num_nodes s0.1 = 0 ∧ (setup (s0.1, s0.2)).1 ≠ Ok tt.
Proof.
  intros FX s0. split; [reflexivity|].
  apply (setup_needs_a_node s0.1 s0.2). reflexivity.
Defined.

(** X5.  With a negative number of nodes a [setup] that returns has built
    nothing: no node, two empty dictionaries, no loader allocated, and no
    node has a test split. *)
Theorem setup_with_negative_nodes `{RT : Runtime} `{FX : !Fenics}
    (dm0 dm : DataModule) (w0 w : World) :
  num_nodes dm0 < 0 →
  setup (dm0, w0) = (Ok tt, (dm, w)) →
  nodes dm = Some [] ∧
  node_datasets dm = Some ∅ ∧
  test_loaders_per_node dm = Some ∅ ∧
  heap w = heap w0 ∧
  ∀ k, test_split dm w k = None.
Proof.
  destruct dm0 as [n a t tf od lg bs sd f1 f2 f3 f4 f5 f6 f7], w0 as [e0 h].
  simpl. intros Hn Hrun.
  destruct (setup_test_split _ _ _ _ Hrun) as (_ & te' & ti & _ & _ & Hsplit).
  apply setup_ready in Hrun as (tr&te&lb&gr&e5&x6&nd&tl&_&_&Hnd&Htl&Hs).
  unfold ready in Hs. simplify_eq. simpl in *.
  assert (py_range n = []) as Hnil by (apply seqZ_nil; lia).
  assert (nd = ∅) as ->.
  { apply map_eq. intros k. rewrite lookup_empty.
    apply (proj2 (Hnd k)). rewrite Hnil. apply not_elem_of_nil. }
  assert (tl = ∅) as ->.
  { apply map_eq. intros k. rewrite lookup_empty.
    apply (proj2 (Htl k)). rewrite Hnil. apply not_elem_of_nil. }
  rewrite Hnil. simpl. rewrite app_nil_r.
  split_and!; try done; intros k; rewrite Hsplit; by rewrite decide_False by lia.
Qed.

Lemma setup_with_negative_nodes_witness :
  let FX := Sample.fenics 4 false in
  let s0 := Sample.built (-1) 0.5%float 32 0 in
  let s := (setup s0).2 in
  nodes s.1 = Some [] ∧
  node_datasets s.1 = Some ∅ ∧
  test_loaders_per_node s.1 = Some ∅ ∧
  heap s.2 = heap s0.2 ∧
  ∀ k, test_split s.1 s.2 k = None.
Proof.
  intros FX s0 s.
  apply (setup_with_negative_nodes s0.1 s.1 s0.2 s.2).
  - reflexivity.
  - apply (run_ok setup s0). vm_compute. reflexivity.
Defined.

(** X6.  When the loader returns fewer training datasets than there are
    nodes, [setup] raises [IndexError] while it builds the dictionary of node
    datasets, once the collaborators have returned: neither dictionary is
    assigned and no loader is allocated. *)
Theorem setup_with_too_few_datasets `{RT : Runtime} `{FX : !Fenics}
    (dm : DataModule) (w : World) (tr : list Dataset) (te : Dataset)
    (lb : Labels) (gr : Graph) (e5 : Env) :
  collaborators_return dm w tr te lb gr e5 →
  Z.of_nat (length tr) < num_nodes dm →
  setup (dm, w) =
    (Raise IndexError, (loaded dm tr te lb gr, mkWorld e5 (heap w))).
Proof.
  destruct dm as [n a t tf od lg bs sd f1 f2 f3 f4 f5 f6 f7], w as [e0 h].
  simpl. intros Hret Hshort.
  rewrite (setup_after_collaborators _ _ _ _ _ _ _ _ _ _ _ _ _ _ _ _ _
             tr te lb gr e5 Hret).
  rewrite (collect_short n a t tf od lg bs sd tr (py_range n) ∅ (Some te)
             (Some lb) (Some (py_range n)) (Some gr) f6 f7 (mkWorld e5 h)
             (Z.of_nat (length tr))).
  - done.
  - apply elem_of_py_range. lia.
  - apply py_getitem_past_end.
Qed.

Lemma setup_with_too_few_datasets_witness :
  let FX := SampleShort.fenics 4 in
  let s0 := Sample.built 2 0.5%float 32 0 in
  let tr := [Subset (Source "train" 8) [0; 1; 2; 3; 4; 5; 6; 7]] in
  let te := Source "test" 4 in
  let lb : @Labels _ FX := [0; 1; 2; 3; 4; 5; 6; 7] in
  let gr : @Graph _ FX := [(0, 1); (1, 0)] in
  let e5 :=
    Sample.env_of 0 1
      ["class distribution"; "data_distribution.png"; "topology.png"] in
  setup (s0.1, s0.2) =
    (Raise IndexError, (loaded s0.1 tr te lb gr, mkWorld e5 (heap s0.2))).
Proof.
  intros FX s0 tr te lb gr e5.
  apply (setup_with_too_few_datasets s0.1 s0.2 tr te lb gr e5).
  - exists (Sample.env_of 0 1 []), (Sample.env_of 0 1 ["class distribution"]),
      (Sample.env_of 0 1 ["class distribution"; "data_distribution.png"]),
      (Sample.env_of 0 1 ["class distribution"; "data_distribution.png"]).
    split_and!; reflexivity.
  - reflexivity.
Defined.

(** X7.  A failure of the dataset loader or of the topology builder is
    fatal for [setup]: it raises the same error at once.  After a failed
    load the instance is exactly as before; after a failed build the data
    and the nodes are assigned, the graph and both dictionaries are not. *)
Theorem setup_propagates_fatal_failure `{RT : Runtime} `{FX : !Fenics}
    (dm : DataModule) (w : World) :
  (∀ ex e1,
     load_datasets_dirichlet (num_nodes dm) (alpha dm) (env w)
       = (Raise ex, e1) →
     setup (dm, w) = (Raise ex, (dm, mkWorld e1 (heap w)))) ∧
  (∀ tr te lb e1 e2 e3 ex e4,
     load_datasets_dirichlet (num_nodes dm) (alpha dm) (env w)
       = (Ok (tr, te, lb), e1) →
     print_class_distribution (Some tr) (logger dm) e1 = (Ok tt, e2) →
     visualize_data_distribution (Some tr) (num_nodes dm) class_names
       (output_dir dm) (logger dm) e2 = (Ok tt, e3) →
     build_topology (num_nodes dm) (topology dm) (topology_file dm) e3
       = (Raise ex, e4) →
     setup (dm, w) =
       (Raise ex,
        (set_nodes (create_nodes (num_nodes dm)) (set_loaded tr te lb dm),
         mkWorld e4 (heap w)))).
Proof.
  destruct dm as [n a t tf od lg bs sd f1 f2 f3 f4 f5 f6 f7], w as [e0 h].
  simpl. split.
  - intros ex e1 Hload.
    unfold setup, mbind, M_bind, attr, assign, call. simpl. by rewrite Hload.
  - intros tr te lb e1 e2 e3 ex e4 Hload Hprint Hplot Hbuild.
    unfold setup, mbind, M_bind, attr, assign, call. simpl.
    rewrite Hload. simpl. rewrite Hprint. simpl. rewrite Hplot. simpl.
    by rewrite Hbuild.
Qed.

(** X8.  After [setup], the test loader of a node of the registry is an
    object in the heap whose dataset is the subset of the test dataset given
    by the node's test split, whose batch size is the configured one and
    which does not shuffle. *)
Theorem test_loader_contents `{RT : Runtime} `{FX : !Fenics}
    (dm0 dm : DataModule) (w0 w : World) (node_id : Z) :
  setup (dm0, w0) = (Ok tt, (dm, w)) →
  0 ≤ node_id < num_nodes dm0 →
  ∃ (l : loc) (te : Dataset) (idx : list Z),
    get_test_loader node_id (dm, w) = (Ok l, (dm, w)) ∧
    test_dataset dm = Some te ∧
    test_split dm w node_id = Some idx ∧
    heap w !! l = Some (mkDataLoader (Subset te idx) (batch_size dm0) false).
Proof.
  destruct dm0 as [n a t tf od lg bs sd f1 f2 f3 f4 f5 f6 f7], w0 as [e0 h].
  simpl. intros Hrun Hin.
  apply setup_ready in Hrun as (tr&te&lb&gr&e5&x6&nd&tl&_&_&_&Htl&Hs).
  pose proof (test_split_ready n a t tf od lg bs sd tr te lb gr nd tl e5 x6 h
                node_id Htl) as Hsplit.
  rewrite <-Hs in Hsplit. cbn zeta in Hsplit.
  rewrite decide_True in Hsplit by done.
  unfold ready in Hs. simplify_eq.
  pose proof (proj1 (Htl node_id) ltac:(by apply elem_of_py_range)) as Hl.
  exists (length h + Z.to_nat node_id)%nat, te,
    (node_slice (shuffled te e5) n node_id).
  split_and!; try done.
  - unfold get_test_loader, mbind, M_bind, attr, lift. simpl.
    unfold dict_getitem. by rewrite Hl.
  - simpl. rewrite lookup_app_r by lia.
    replace (length h + Z.to_nat node_id - length h)%nat
      with (Z.to_nat node_id) by lia.
    rewrite list_lookup_fmap. unfold py_range.
    rewrite lookup_seqZ_lt by lia. simpl. rewrite Z2Nat.id by lia.
    unfold loader_at. by rewrite indices_at_node_slice.
Qed.

Lemma test_loader_contents_witness :
  let RT := Sample.runtime in
  let FX := Sample.fenics 4 false in
  let s0 := Sample.built 2 0.5%float 32 0 in
  let s := (setup s0).2 in
  ∃ (l : loc) (te : Dataset) (idx : list Z),
    get_test_loader 1 (s.1, s.2) = (Ok l, (s.1, s.2)) ∧
    test_dataset s.1 = Some te ∧
    test_split s.1 s.2 1 = Some idx ∧
    heap s.2 !! l = Some (mkDataLoader (Subset te idx) (batch_size s0.1) false).
Proof.
  intros RT FX s0 s.
  apply (test_loader_contents s0.1 s.1 s0.2 s.2 1).
  - apply (run_ok setup s0). vm_compute. reflexivity.
  - vm_compute. split; [discriminate|reflexivity].
Defined.

(** X9.  With more nodes than test examples every node but the last gets an
    empty test split and the last node gets all the test indices. *)
Theorem more_nodes_than_test_examples `{RT : Runtime} `{FX : !Fenics}
    (dm0 dm : DataModule) (w0 w : World) (te : Dataset) :
  setup (dm0, w0) = (Ok tt, (dm, w)) →
  test_dataset dm = Some te →
  len te < num_nodes dm0 →
  (∀ k, 0 ≤ k < num_nodes dm0 - 1 → test_split dm w k = Some []) ∧
  ∃ idx, test_split dm w (num_nodes dm0 - 1) = Some idx ∧
         idx ≡ₚ py_range (len te).
Proof.
  intros Hrun Hte Hmore. pose proof (len_nonneg te) as Hnn.
  destruct (setup_test_split _ _ _ _ Hrun) as (_ & te' & ti & Hte' & Hperm & Hsplit).
  rewrite Hte in Hte'. simplify_eq.
  assert (Z.of_nat (length ti) = len te') as Hlen.
  { rewrite (Permutation_length Hperm). unfold py_range.
    rewrite length_seqZ. lia. }
  assert (Z.of_nat (length ti) / num_nodes dm0 = 0) as Hzero
    by (apply Z.div_small; lia).
  split.
  - intros k Hk. rewrite Hsplit, decide_True by lia. f_equal.
    rewrite node_slice_inner by lia. by rewrite Hzero.
  - exists ti. split; [|done].
    rewrite Hsplit, decide_True by lia. f_equal.
    rewrite node_slice_last by lia. rewrite Hzero, Z.mul_0_r. done.
Qed.

Lemma more_nodes_than_test_examples_witness :
  let FX := Sample.fenics 2 false in
  let s0 := Sample.built 3 0.5%float 32 0 in
  let s := (setup s0).2 in
  let te := Source "test" 2 in
  (∀ k, 0 ≤ k < num_nodes s0.1 - 1 → test_split s.1 s.2 k = Some []) ∧
  ∃ idx, test_split s.1 s.2 (num_nodes s0.1 - 1) = Some idx ∧
         idx ≡ₚ py_range (len te).
Proof.
  intros FX s0 s te.
  apply (more_nodes_than_test_examples s0.1 s.1 s0.2 s.2 te).
  - apply (run_ok setup s0). vm_compute. reflexivity.
  - vm_compute. reflexivity.
  - reflexivity.
Defined.

(** The slices of the nodes, put one after the other in node order, give the
    list back. *)
Lemma node_slices_concat {A} (x : list A) (n : Z) :
  1 ≤ n → concat (node_slice x n <$> py_range n) = x.
Proof.
  intros Hn. set (ss := Z.of_nat (length x) / n).
  assert (0 ≤ ss) as Hss by (apply Z.div_pos; lia).
  assert (∀ m : nat, Z.of_nat m ≤ n - 1 →
            concat (node_slice x n <$> seqZ 0 (Z.of_nat m)) =
              take (m * Z.to_nat ss) x) as Hinner.
  { induction m as [|m IH]; intros Hm; [done|].
    rewrite seqZ_S, fmap_app, concat_app, IH by lia. simpl.
    rewrite app_nil_r, Z.add_0_l, node_slice_inner by lia. fold ss.
    replace (Z.to_nat (Z.of_nat m * ss)) with (m * Z.to_nat ss)%nat by nia.
    rewrite take_take_drop. f_equal. lia. }
  unfold py_range. replace n with (Z.of_nat (S (Z.to_nat (n - 1)))) at 2 by lia.
  rewrite seqZ_S, fmap_app, concat_app, Hinner by lia. simpl.
  rewrite app_nil_r, Z.add_0_l, Z2Nat.id, node_slice_last by lia. fold ss.
  replace (Z.to_nat ((n - 1) * ss)) with (Z.to_nat (n - 1) * Z.to_nat ss)%nat
    by nia.
  apply take_drop.
Qed.

(** X10.  After [setup] with at least one node, the test splits of the
    nodes, concatenated in node order, are a rearrangement of all the test
    indices; their sizes add up to the size of the test set. *)
Theorem test_splits_concat `{RT : Runtime} `{FX : !Fenics}
    (dm0 dm : DataModule) (w0 w : World) :
  setup (dm0, w0) = (Ok tt, (dm, w)) →
  1 ≤ num_nodes dm0 →
  ∃ te,
    test_dataset dm = Some te ∧
    let splits :=
      (λ k, default [] (test_split dm w k)) <$> create_nodes (num_nodes dm0) in
    concat splits ≡ₚ py_range (len te) ∧
    Z.of_nat (length (concat splits)) = len te.
Proof.
  intros Hrun Hn.
  destruct (setup_test_split _ _ _ _ Hrun) as (_ & te & ti & Hte & Hperm & Hsplit).
  exists te. split; [done|]. cbn zeta. unfold create_nodes.
  assert ((λ k, default [] (test_split dm w k)) <$> py_range (num_nodes dm0) =
          node_slice ti (num_nodes dm0) <$> py_range (num_nodes dm0)) as ->.
  { apply list_fmap_ext. intros i k Hk.
    apply list_elem_of_lookup_2, elem_of_py_range in Hk.
    by rewrite Hsplit, decide_True. }
  rewrite node_slices_concat by done. split; [done|].
  rewrite (Permutation_length Hperm). unfold py_range. rewrite length_seqZ.
  pose proof (len_nonneg te). lia.
Qed.

Lemma test_splits_concat_witness :
  let FX := Sample.fenics 4 false in
  let s0 := Sample.built 3 0.5%float 32 0 in
  let s := (setup s0).2 in
  ∃ te,
    test_dataset s.1 = Some te ∧
    let splits :=
      (λ k, default [] (test_split s.1 s.2 k)) <$> create_nodes (num_nodes s0.1) in
    concat splits ≡ₚ py_range (len te) ∧
    Z.of_nat (length (concat splits)) = len te.
Proof.
  intros FX s0 s.
  apply (test_splits_concat s0.1 s.1 s0.2 s.2).
  - apply (run_ok setup s0). vm_compute. reflexivity.
  - vm_compute. discriminate.
Defined.

(** X11.  After [setup], [get_data_sizes] returns, in every later state and
    without any effect, a dictionary whose keys are exactly the nodes of the
    registry and whose value for node [k] is the length of the [k]-th
    training dataset. *)
Theorem data_sizes_after_setup `{RT : Runtime} `{FX : !Fenics}
    (dm0 dm : DataModule) (w0 w : World) :
  setup (dm0, w0) = (Ok tt, (dm, w)) →
  ∃ (tr : list Dataset) (sizes : gmap Z Z),
    train_datasets dm = Some tr ∧
    (∀ w' : World, get_data_sizes (dm, w') = (Ok sizes, (dm, w'))) ∧
    ∀ k, sizes !! k =
           if decide (0 ≤ k < num_nodes dm0) then len <$> tr !! Z.to_nat k
           else None.
Proof.
  intros Hrun.
  destruct (setup_dicts _ _ _ _ Hrun) as (tr & nd & _ & Htr & Hnd & Hof & _).
  destruct (node_datasets_of_lookup _ tr nd Hof) as [_ Hlookup].
  exists tr, (len <$> nd). split_and!; [done|..].
  - intros w'. unfold get_data_sizes, mbind, M_bind, attr, mret, M_ret. simpl.
    by rewrite Hnd.
  - intros k. rewrite lookup_fmap, Hlookup. by case_decide.
Qed.

Lemma data_sizes_after_setup_witness :
  let RT := Sample.runtime in
  let FX := Sample.fenics 4 false in
  let s0 := Sample.built 2 0.5%float 32 0 in
  let s := (setup s0).2 in
  ∃ (tr : list Dataset) (sizes : gmap Z Z),
    train_datasets s.1 = Some tr ∧
    (∀ w' : @World RT, get_data_sizes (s.1, w') = (Ok sizes, (s.1, w'))) ∧
    ∀ k, sizes !! k =
           if decide (0 ≤ k < num_nodes s0.1) then len <$> tr !! Z.to_nat k
           else None.
Proof.
  intros RT FX s0 s.
  apply (data_sizes_after_setup s0.1 s.1 s0.2 s.2).
  apply (run_ok setup s0). vm_compute. reflexivity.
Defined.

(** X12.  A second [setup] builds new test loaders: for a node of the
    registry, the loader the instance hands out afterwards is another object
    than the one it handed out before, and the old object is still in the
    heap, unchanged. *)
Theorem second_setup_replaces_test_loaders `{RT : Runtime} `{FX : !Fenics}
    (dm0 dm1 dm2 : DataModule) (w0 w1 w2 : World) (node_id : Z) :
  setup (dm0, w0) = (Ok tt, (dm1, w1)) →
  setup (dm1, w1) = (Ok tt, (dm2, w2)) →
  0 ≤ node_id < num_nodes dm0 →
  ∃ l1 l2 : loc,
    get_test_loader node_id (dm1, w1) = (Ok l1, (dm1, w1)) ∧
    get_test_loader node_id (dm2, w2) = (Ok l2, (dm2, w2)) ∧
    l1 ≠ l2 ∧
    is_Some (heap w1 !! l1) ∧
    heap w2 !! l1 = heap w1 !! l1.
Proof.
  intros Hrun1 Hrun2 Hin.
  destruct (setup_keeps_config _ _ _ _ Hrun1) as (Hn & _).
  destruct (setup_dicts _ _ _ _ Hrun1)
    as (_ & _ & tl1 & _ & _ & _ & Htl1 & Hfrom1 & _ & Hlen1).
  destruct (setup_dicts _ _ _ _ Hrun2)
    as (_ & _ & tl2 & _ & _ & _ & Htl2 & Hfrom2 & Hpre & _).
  rewrite <-Hn in Hfrom2.
  assert (node_id ∈ py_range (num_nodes dm0)) as Hk
    by (by apply elem_of_py_range).
  pose proof (proj1 (Hfrom1 node_id) Hk) as Hl1.
  pose proof (proj1 (Hfrom2 node_id) Hk) as Hl2.
  exists (length (heap w0) + Z.to_nat node_id)%nat,
    (length (heap w1) + Z.to_nat node_id)%nat.
  split_and!.
  - unfold get_test_loader, mbind, M_bind, attr, lift. simpl.
    rewrite Htl1. simpl. unfold dict_getitem. by rewrite Hl1.
  - unfold get_test_loader, mbind, M_bind, attr, lift. simpl.
    rewrite Htl2. simpl. unfold dict_getitem. by rewrite Hl2.
  - lia.
  - apply lookup_lt_is_Some_2. lia.
  - symmetry. apply prefix_lookup_lt; [lia|done].
Qed.

Lemma second_setup_replaces_test_loaders_witness :
  let FX := Sample.fenics 4 false in
  let s0 := Sample.built 2 0.5%float 32 0 in
  let s1 := (setup (s0.1, s0.2)).2 in
  let s2 := (setup (s1.1, s1.2)).2 in
  ∃ l1 l2 : loc,
    get_test_loader 0 (s1.1, s1.2) = (Ok l1, (s1.1, s1.2)) ∧
    get_test_loader 0 (s2.1, s2.2) = (Ok l2, (s2.1, s2.2)) ∧
    l1 ≠ l2 ∧
    is_Some (heap s1.2 !! l1) ∧
    heap s2.2 !! l1 = heap s1.2 !! l1.
Proof.
  intros FX s0 s1 s2.
  apply (second_setup_replaces_test_loaders s0.1 s1.1 s2.1 s0.2 s1.2 s2.2 0).
  - apply (run_ok setup (s0.1, s0.2)). vm_compute. reflexivity.
  - apply (run_ok setup (s1.1, s1.2)). vm_compute. reflexivity.
  - vm_compute. split; [discriminate|reflexivity].
Defined.

Lemma py_getitem_in_range {A} (x : list A) (k : Z) :
  0 ≤ k < Z.of_nat (length x) → ∃ d, py_getitem x k = Ok d.
Proof.
  intros Hk. unfold py_getitem. cbv zeta. repeat case_decide; try lia.
  destruct (lookup_lt_is_Some_2 x (Z.to_nat k) ltac:(lia)) as [d ->]. eauto.
Qed.

(** X13.  When the validation of [DataLoader] rejects the test loader of
    node 0 (a batch size that is not positive, for one), [setup] raises that
    error after the collaborators have returned: the dictionary of node
    datasets is assigned, the dictionary of test loaders is empty, the test
    indices have been shuffled and no loader is allocated. *)
Theorem setup_stops_at_rejected_loader `{RT : Runtime} `{FX : !Fenics}
    (dm : DataModule) (w : World) (tr : list Dataset) (te : Dataset)
    (lb : Labels) (gr : Graph) (e5 : Env) (ex : exn) :
  collaborators_return dm w tr te lb gr e5 →
  1 ≤ num_nodes dm ≤ Z.of_nat (length tr) →
  DataLoader_check
    (Subset te (node_slice (shuffled te e5) (num_nodes dm) 0))
    (batch_size dm) false = Some ex →
  ∃ nd,
    node_datasets_of (num_nodes dm) tr nd ∧
    setup (dm, w) =
      (Raise ex,
       (set_test_loaders_per_node ∅
          (set_node_datasets nd (loaded dm tr te lb gr)),
        mkWorld (mkEnv (after_shuffle te e5) (ext e5)) (heap w))).
Proof.
  destruct dm as [n a t tf od lg bs sd f1 f2 f3 f4 f5 f6 f7], w as [e0 h].
  simpl. intros Hret Hn Hck.
  destruct (collect_run n a t tf od lg bs sd tr (py_range n) ∅ (Some te)
              (Some lb) (Some (py_range n)) (Some gr) f6 f7 (mkWorld e5 h))
    as (nd & Hcollect & Hout & Hin).
  { intros k Hk%elem_of_py_range. apply py_getitem_in_range. lia. }
  exists nd. split.
  { intros k. split; [apply Hin|]. intros Hk. by rewrite Hout. }
  rewrite (setup_after_collaborators _ _ _ _ _ _ _ _ _ _ _ _ _ _ _ _ _
             tr te lb gr e5 Hret).
  rewrite Hcollect. unfold set_node_datasets. cbn [fst snd].
  cbn [num_nodes alpha topology topology_file output_dir logger batch_size
       random_seed train_datasets test_dataset labels nodes G node_datasets
       test_loaders_per_node].
  rewrite create_test_loaders_run. cbv zeta.
  rewrite decide_False by lia.
  unfold py_range at 1. rewrite seqZ_cons by lia.
  rewrite for_each_cons, test_loader_for_run.
  unfold loader_at. cbn [dl_dataset]. rewrite indices_at_node_slice.
  by rewrite Hck.
Qed.

Lemma setup_stops_at_rejected_loader_witness :
  let FX := Sample.fenics 4 false in
  let s0 := Sample.built 2 0.5%float 0 0 in
  let train := Source "train" 8 in
  let tr := [Subset train [0; 2; 4; 6]; Subset train [1; 3; 5; 7]] in
  let te := Source "test" 4 in
  let lb : @Labels _ FX := [0; 1; 2; 3; 4; 5; 6; 7] in
  let gr : @Graph _ FX := [(0, 1); (1, 0)] in
  let e5 :=
    Sample.env_of 0 1
      ["class distribution"; "data_distribution.png"; "topology.png"] in
  ∃ nd,
    node_datasets_of (num_nodes s0.1) tr nd ∧
    setup (s0.1, s0.2) =
      (Raise (ValueError "batch_size should be a positive integer value"),
       (set_test_loaders_per_node ∅
          (set_node_datasets nd (loaded s0.1 tr te lb gr)),
        mkWorld (mkEnv (after_shuffle te e5) (ext e5)) (heap s0.2))).
Proof.
  intros FX s0 train tr te lb gr e5.
  apply (setup_stops_at_rejected_loader s0.1 s0.2 tr te lb gr e5).
  - exists (Sample.env_of 0 1 []), (Sample.env_of 0 1 ["class distribution"]),
      (Sample.env_of 0 1 ["class distribution"; "data_distribution.png"]),
      (Sample.env_of 0 1 ["class distribution"; "data_distribution.png"]).
    split_and!; reflexivity.
  - split; [vm_compute; discriminate|vm_compute; discriminate].
  - reflexivity.
Defined.

(** * Properties of the topology base class *)

Lemma append_cons (c : Ascii.ascii) (p b : string) :
  String.append (String c p) b = String c (String.append p b).
Proof. reflexivity. Qed.

Lemma append_nil (b : string) : String.append EmptyString b = b.
Proof. reflexivity. Qed.

Lemma starts_with_spec (p s : string) :
  starts_with p s = true ↔ ∃ b, s = String.append p b.
Proof.
  revert s. induction p as [|a p IH]; intros s; simpl.
  - split; [eauto|done].
  - destruct s as [|c s]; [split; [done|by intros [b ?]]|].
    destruct (Ascii.eqb_spec a c) as [->|Hne].
    + rewrite IH. split; intros [b Hb]; exists b;
        rewrite append_cons in *; congruence.
    + split; [done|]. intros [b Hb]. rewrite append_cons in Hb. congruence.
Qed.

Lemma occurs_cons (old : string) (c : Ascii.ascii) (s : string) :
  occurs old s → occurs old (String c s).
Proof. intros (a & b & ->). by exists (String c a), b. Qed.

Lemma replace_from_absent (old new s : string) :
  ¬ occurs old s → replace_from old new 0 s = s.
Proof.
  induction s as [|c s IH]; intros Habs; [done|]. simpl.
  destruct (starts_with old (String c s)) eqn:Hstart.
  - apply starts_with_spec in Hstart as [b Hb]. destruct Habs.
    by exists EmptyString, b.
  - rewrite IH; [done|]. intros Hocc. by apply Habs, occurs_cons.
Qed.

(** Spell out the characters of ["Topology" ++ q]. *)
Ltac spell_topology q :=
  let t := eval cbv [String.append] in (String.append "Topology" q) in
  change (String.append "Topology" q) with t.

Ltac spell_topology_in q H :=
  let t := eval cbv [String.append] in (String.append "Topology" q) in
  change (String.append "Topology" q) with t in H.

(** An occurrence that starts before an occurrence of ["Topology"] and
    reaches into it lies before it altogether: the word does not overlap
    itself. *)
Lemma topology_no_overlap (s q : string) :
  starts_with "Topology" (String.append s (String.append "Topology" q)) = true →
  s = EmptyString ∨ ∃ b, s = String.append "Topology" b.
Proof.
  intros Hstart.
  destruct s as [|c1 [|c2 [|c3 [|c4 [|c5 [|c6 [|c7 [|c8 s]]]]]]]]; [by left|..];
    right; rewrite ?append_cons, ?append_nil in Hstart;
    spell_topology_in q Hstart;
    cbn [starts_with] in Hstart;
    repeat match type of Hstart with
           | context [Ascii.eqb ?x ?y] =>
               destruct (Ascii.eqb_spec x y); [subst|done]
           end; try done.
  by exists s.
Qed.

(** X14.  [get_name] returns the class name unchanged when the word
    "Topology" does not occur in it. *)
Theorem get_name_without_topology (self : TopologyBase.t) :
  ¬ occurs "Topology" (TopologyBase.class_name self) →
  TopologyBase.get_name self = TopologyBase.class_name self.
Proof. apply replace_from_absent. Qed.

Lemma get_name_without_topology_witness :
  ¬ occurs "Topology" "Ring" ∧
  TopologyBase.get_name (TopologyBase.__init__ "Ring" 5) = "Ring".
Proof.
  assert (¬ occurs "Topology" "Ring") as Habs.
  { intros (a & b & Hab).
    destruct a as [|c1 [|c2 [|c3 [|c4 [|c5 a]]]]];
      rewrite ?append_cons, ?append_nil in Hab;
      spell_topology_in b Hab;
      discriminate. }
  split; [done|].
  apply (get_name_without_topology (TopologyBase.__init__ "Ring" 5) Habs).
Defined.

(** X15.  [get_name] removes the word "Topology": for a class named
    [p ++ "Topology" ++ q] with no occurrence of the word in [p], the result
    is [p] followed by what [get_name] makes of [q]; a class named
    [p ++ "Topology"] gets the name [p]. *)
Theorem get_name_strips_topology (p q : string) (n : Z) :
  ¬ occurs "Topology" p →
  TopologyBase.get_name
    (TopologyBase.__init__ (String.append p (String.append "Topology" q)) n) =
    String.append p (TopologyBase.get_name (TopologyBase.__init__ q n)) ∧
  TopologyBase.get_name
    (TopologyBase.__init__ (String.append p "Topology") n) = p.
Proof.
  intros Habs.
  assert (∀ q, replace_from "Topology" "" 0
                 (String.append p (String.append "Topology" q)) =
               String.append p (replace_from "Topology" "" 0 q)) as Hgen.
  { clear q. intros q. induction p as [|c p IH].
    - rewrite !append_nil. spell_topology q. reflexivity.
    - remember (String.append "Topology" q) as tq eqn:Htq.
      rewrite !append_cons. cbn [replace_from].
      destruct (starts_with "Topology" (String c (String.append p tq)))
        eqn:Hstart.
      + rewrite <-append_cons, Htq in Hstart.
        apply topology_no_overlap in Hstart as [?|[b Hb]]; [done|].
        destruct Habs. by exists EmptyString, b.
      + f_equal. apply IH. intros Hocc. by apply Habs, occurs_cons. }
  split; [apply Hgen|].
  unfold TopologyBase.get_name, TopologyBase.__init__, py_replace.
  cbn [TopologyBase.class_name].
  specialize (Hgen EmptyString).
  change (String.append "Topology" EmptyString) with "Topology" in Hgen.
  rewrite Hgen. cbn [replace_from].
  clear. induction p as [|c p IH]; [done|]. rewrite append_cons. by rewrite IH.
Qed.

Lemma get_name_strips_topology_witness :
  ¬ occurs "Topology" "Torus" ∧
  TopologyBase.get_name (TopologyBase.__init__ "TorusTopologyV2" 4) =
    String.append "Torus" (TopologyBase.get_name (TopologyBase.__init__ "V2" 4)) ∧
  TopologyBase.get_name (TopologyBase.__init__ "TorusTopology" 4) = "Torus".
Proof.
  assert (¬ occurs "Topology" "Torus") as Habs.
  { intros (a & b & Hab).
    destruct a as [|c1 [|c2 [|c3 [|c4 [|c5 [|c6 a]]]]]];
      rewrite ?append_cons, ?append_nil in Hab;
      spell_topology_in b Hab;
      discriminate. }
  split; [done|].
  apply (get_name_strips_topology "Torus" "V2" 4 Habs).
Defined.

(** X16.  [get_name] only removes whole words: the class name is longer
    than the result by a multiple of eight, the length of "Topology"; the
    result is never longer than the class name. *)
Theorem get_name_length (self : TopologyBase.t) :
  ∃ removed : nat,
    String.length (TopologyBase.class_name self) =
      (String.length (TopologyBase.get_name self) + 8 * removed)%nat.
Proof.
  unfold TopologyBase.get_name, py_replace.
  generalize (TopologyBase.class_name self) as s. intros s.
  assert (∀ k, ∃ m,
            String.length s =
              (String.length (replace_from "Topology" "" k s) +
               Nat.min k (String.length s) + 8 * m)%nat) as Hlen.
  { induction s as [|c s IH]; intros k; [exists 0%nat; simpl; lia|].
    cbn [replace_from]. destruct k as [|k].
    - destruct (starts_with "Topology" (String c s)) eqn:Hstart.
      + apply starts_with_spec in Hstart as [b Hb].
        spell_topology_in b Hb. injection Hb as _ Hs.
        assert (7 ≤ String.length s)%nat by (rewrite Hs; simpl; lia).
        destruct (IH 7%nat) as [m Hm]. exists (S m).
        rewrite append_nil.
        change (String.length "Topology" - 1)%nat with 7%nat.
        cbn [String.length]. lia.
      + destruct (IH 0%nat) as [m Hm]. exists m. cbn [String.length]. lia.
    - destruct (IH k) as [m Hm]. exists m. cbn [String.length]. lia. }
  destruct (Hlen 0%nat) as [m Hm]. exists m. lia.
Qed.
